(** * crypto-chart-plotter: the interval selector, the annotation
      positioner and the buy/sell overlay of [chart.py] / [grafico.py]

    The Python code is embedded shallowly: a [dict] is an association list
    in insertion order, exceptions are an explicit result type, the mutable
    [Chart] object is passed as explicit state, and the float produced by
    the true division [/] is a rational rounded to binary64. *)

From Stdlib Require Import ZArith QArith List String Ascii Bool Arith Lia.
From Stdlib Require Import Permutation Sorted SpecFloat.
Import ListNotations.

Local Open Scope string_scope.
Local Open Scope list_scope.
Local Open Scope nat_scope.

(** ** Python prelude *)

Module Py.

(** Exceptions the two modules can raise or propagate. *)
Inductive exn : Type :=
| IndexError
| KeyError (key : string)
| ZeroDivisionError
| OverflowError
| ValueError
| HTTPError (status_code : Z)
| Exception (message : string).

(** Outcome of a Python call: a returned value or a raised exception. *)
Inductive pyresult (A : Type) : Type :=
| Return (value : A)
| Raise (e : exn).

Arguments Return {A} value.
Arguments Raise {A} e.

Definition bind {A B : Type} (r : pyresult A) (k : A -> pyresult B)
  : pyresult B :=
  match r with
  | Return a => k a
  | Raise e => Raise e
  end.

Notation "x <- r ;; k" := (bind r (fun x => k))
  (at level 61, r at next level, right associativity).

(** Truth value of an optional string argument: [None] and [''] are falsy. *)
Definition truthy (s : option string) : bool :=
  match s with
  | None => false
  | Some EmptyString => false
  | Some (String _ _) => true
  end.

(** *** Dictionaries, in insertion order *)

Definition pydict (V : Type) : Type := list (string * V).

Section Dict.
Context {V : Type}.

(** [d[k]] *)
Fixpoint dict_getitem (d : pydict V) (k : string) : pyresult V :=
  match d with
  | [] => Raise (KeyError k)
  | (k', v) :: rest => if String.eqb k' k then Return v else dict_getitem rest k
  end.

(** [d[k] = v]: an existing key keeps its position, a new key goes last. *)
Fixpoint dict_setitem (d : pydict V) (k : string) (v : V) : pydict V :=
  match d with
  | [] => [(k, v)]
  | (k', v') :: rest =>
      if String.eqb k' k then (k', v) :: rest
      else (k', v') :: dict_setitem rest k v
  end.

(** [for k in d] *)
Definition dict_keys (d : pydict V) : list string := map fst d.

(** [d.items()] *)
Definition dict_items (d : pydict V) : list (string * V) := d.

(** [dict(pairs)] *)
Definition dict_of_items (pairs : list (string * V)) : pydict V :=
  fold_left (fun d kv => dict_setitem d (fst kv) (snd kv)) pairs [].

(** A dictionary holds each key once. *)
Definition dict_wf (d : pydict V) : Prop := NoDup (dict_keys d).
End Dict.

(** *** Lists *)

(** [l[-1]] *)
Fixpoint list_last {A : Type} (l : list A) : pyresult A :=
  match l with
  | [] => Raise IndexError
  | [x] => Return x
  | _ :: rest => list_last rest
  end.

(** [l[i]] for a non-negative index *)
Fixpoint list_getitem {A : Type} (l : list A) (i : nat) : pyresult A :=
  match l, i with
  | [], _ => Raise IndexError
  | x :: _, O => Return x
  | _ :: rest, S j => list_getitem rest j
  end.

(** *** [sorted(l, key=...)]: a stable sort, ascending by key *)

Section Sorted.
Context {A : Type} (key : A -> nat).

Fixpoint insert_by (x : A) (l : list A) : list A :=
  match l with
  | [] => [x]
  | y :: rest =>
      if key x <=? key y then x :: y :: rest else y :: insert_by x rest
  end.

Fixpoint sorted (l : list A) : list A :=
  match l with
  | [] => []
  | x :: rest => insert_by x (sorted rest)
  end.
End Sorted.

(** *** Floats: binary64, round to nearest, ties to even

    A float is [mant * 2^expo].  [int / int] is the exact quotient rounded
    to 53 significant bits; a decimal literal is the decimal rounded the
    same way.  The exponent is not bounded: the quotient of two non-zero
    64-bit integers lies between 2^-64 and 2^64, far inside the normal
    range of binary64, so neither overflow nor gradual underflow occurs. *)

Record float : Type := {
  mant : Z;
  expo : Z
}.

(** [x / 2^e] for [x = n / d] is [scale_num n e / scale_den d e]. *)
Definition scale_num (n e : Z) : Z := (n * 2 ^ Z.max 0 (- e))%Z.
Definition scale_den (d e : Z) : Z := (d * 2 ^ Z.max 0 e)%Z.

(** Nearest integer to [n / d], for [0 < d], ties to the even one. *)
Definition round_half_even (n d : Z) : Z :=
  let q := (n / d)%Z in
  let r := (n mod d)%Z in
  match (2 * r ?= d)%Z with
  | Lt => q
  | Gt => (q + 1)%Z
  | Eq => if Z.even q then q else (q + 1)%Z
  end.

(** The exponent [e] with [2^52 <= (n / d) / 2^e < 2^53], for [0 < n, d]. *)
Definition float_exponent (n d : Z) : Z :=
  let k := (Z.log2 n - Z.log2 d - 52)%Z in
  if (2 ^ 52 * scale_den d k <=? scale_num n k)%Z then k else (k - 1)%Z.

(** [n / d] rounded to a float, for [0 < n, d]. *)
Definition round_pos (n d : Z) : float :=
  let e := float_exponent n d in
  {| mant := round_half_even (scale_num n e) (scale_den d e); expo := e |}.

(** [n / d] rounded to a float, for [0 < d]. *)
Definition round_binary64 (n d : Z) : float :=
  match n with
  | Z0 => {| mant := 0; expo := 0 |}
  | Zpos _ => round_pos n d
  | Zneg _ =>
      let f := round_pos (- n) d in {| mant := - mant f; expo := expo f |}
  end.

(** [f < g] *)
Definition float_ltb (f g : float) : bool :=
  let e := Z.min (expo f) (expo g) in
  (mant f * 2 ^ (expo f - e) <? mant g * 2 ^ (expo g - e))%Z.

(** [a / b] on two ints *)
Definition truediv (a b : Z) : pyresult float :=
  if (b =? 0)%Z then Raise ZeroDivisionError
  else if (0 <? b)%Z then Return (round_binary64 a b)
  else Return (round_binary64 (- a) (- b)).

(** The literals [0.9] and [0.1]. *)
Definition float_0_9 : float := round_binary64 9 10.
Definition float_0_1 : float := round_binary64 1 10.

(** *** Strings (ASCII letters) *)

Definition upper_ascii (c : ascii) : ascii :=
  let n := nat_of_ascii c in
  if (97 <=? n) && (n <=? 122) then ascii_of_nat (n - 32) else c.

Definition lower_ascii (c : ascii) : ascii :=
  let n := nat_of_ascii c in
  if (65 <=? n) && (n <=? 90) then ascii_of_nat (n + 32) else c.

Fixpoint map_string (f : ascii -> ascii) (s : string) : string :=
  match s with
  | EmptyString => EmptyString
  | String c rest => String (f c) (map_string f rest)
  end.

(** [s.upper()] *)
Definition str_upper (s : string) : string := map_string upper_ascii s.

(** [s.capitalize()] *)
Definition str_capitalize (s : string) : string :=
  match s with
  | EmptyString => EmptyString
  | String c rest => String (upper_ascii c) (map_string lower_ascii rest)
  end.

(** [s[:-3]] *)
Definition str_drop_last3 (s : string) : string :=
  substring 0 (String.length s - 3) s.

End Py.

Import Py.

(** ** Data of the market-data response *)

(** One candle [[time, open, high, low, close, volume]]. *)
Record Candle : Type := {
  candle_time : Z;
  candle_open : Q;
  candle_high : Q;
  candle_low : Q;
  candle_close : Q;
  candle_volume : Q
}.

(** The parsed body of the response; only ['result'] is read. *)
Record Data : Type := {
  result : pydict (list Candle)
}.

(** ** pandas timestamps and plotly figures *)

(** A timestamp: [value] is the time in nanoseconds since the epoch, a
    signed 64-bit integer. *)
Record Timestamp : Type := {
  value : Z
}.

Definition valid_timestamp (t : Timestamp) : Prop :=
  (- 2 ^ 63 <= value t < 2 ^ 63)%Z.

(** [t1 < t2] and [t1 > t2] *)
Definition ts_ltb (t1 t2 : Timestamp) : bool := (value t1 <? value t2)%Z.
Definition ts_gtb (t1 t2 : Timestamp) : bool := (value t2 <? value t1)%Z.

(** [pd.to_datetime(seconds, unit='s', utc=True)] *)
Definition to_datetime_s (seconds : Z) : Timestamp :=
  {| value := seconds * 10 ^ 9 |}.

(** [t - pd.Timedelta('1d')], for [t] a day or more above the least
    timestamp *)
Definition ts_minus_1d (t : Timestamp) : Timestamp :=
  {| value := value t - 86400 * 10 ^ 9 |}.

(** [t.value] as the constructor reads it: the nanoseconds as an int64.
    A timestamp kept at a coarser resolution whose nanoseconds do not fit
    raises [OverflowError]. *)
Definition timestamp_value (t : Timestamp) : pyresult Z :=
  if ((- 2 ^ 63 <=? value t) && (value t <? 2 ^ 63))%Z
  then Return (value t)
  else Raise OverflowError.

Inductive Trace : Type :=
| Candlestick (x : list Timestamp) (open high low close : list Q)
| Bar (x : list Timestamp) (y : list Q)
| Scatter (x : list Timestamp) (y : list Q) (marker_color : string).

Record Annotation : Type := {
  ann_x : Timestamp;
  ann_y : Q;
  ann_text : string;
  ann_ax : Z
}.

(** The part of a plotly figure the code reads and writes: [fig.data] and
    [fig.layout.annotations]. *)
Record Figure : Type := {
  data : list Trace;
  annotations : list Annotation
}.

(** [fig.append_trace(trace, ...)] *)
Definition append_trace (fig : Figure) (trace : Trace) : Figure :=
  {| data := data fig ++ [trace]; annotations := annotations fig |}.

(** [fig.add_annotation(...)] *)
Definition add_annotation (fig : Figure) (a : Annotation) : Figure :=
  {| data := data fig; annotations := annotations fig ++ [a] |}.

(** A response of [requests.get]. *)
Record Response : Type := {
  status_code : Z;
  json : Data
}.

(** [response.raise_for_status()] *)
Definition raise_for_status (response : Response) : pyresult unit :=
  if ((400 <=? status_code response) && (status_code response <? 600))%Z
  then Raise (HTTPError (status_code response))
  else Return tt.

(** ** chart.py *)

Module chart.

(** The first loop of [_get_optimal_interval]:
    [for interval in data['result']: intervals[interval] = len(...)]. *)
Fixpoint count_points (keys : list string) (res : pydict (list Candle))
         (intervals : pydict nat) : pyresult (pydict nat) :=
  match keys with
  | [] => Return intervals
  | interval :: rest =>
      candles <- dict_getitem res interval ;;
      let size := List.length candles in
      count_points rest res (dict_setitem intervals interval size)
  end.

(** The second loop: [Some interval] when the loop body returns,
    [None] when the loop runs to its end. *)
Fixpoint search_interval (optimal_size : nat) (sorted_intervals : pydict nat)
         (keys : list string) : pyresult (option string) :=
  match keys with
  | [] => Return None
  | interval :: rest =>
      size <- dict_getitem sorted_intervals interval ;;
      if optimal_size <? size then Return (Some interval)
      else search_interval optimal_size sorted_intervals rest
  end.

(** [None] as a result is Python's [None]. *)
Definition _get_optimal_interval (time : option string) (data : Data)
  : pyresult (option string) :=
  if truthy time then Return time
  else
    let optimal_size := 500 in
    intervals <- count_points (dict_keys (result data)) (result data) [] ;;
    let sorted_intervals :=
      dict_of_items (sorted snd (dict_items intervals)) in
    found <- search_interval optimal_size sorted_intervals
               (dict_keys sorted_intervals) ;;
    match found with
    | Some interval => Return (Some interval)
    | None =>
        last <- list_last (dict_items sorted_intervals) ;;
        let '(interval, size) := last in
        if size =? 0 then Return None else Return (Some interval)
    end.

(** The attributes of a [Chart] object. *)
Record Chart : Type := {
  local : string;
  file_path : string;
  pair : string;
  start_date : Timestamp;
  end_date : Timestamp;
  fig : Figure
}.

Definition set_fig (self : Chart) (f : Figure) : Chart :=
  {| local := local self; file_path := file_path self; pair := pair self;
     start_date := start_date self; end_date := end_date self; fig := f |}.

(** [Chart.__create_figure] *)
Definition __create_figure (candles : list Candle) : Figure :=
  let extract_data := fun {A : Type} (x : Candle -> A) => map x candles in
  let dates := map to_datetime_s (extract_data candle_time) in
  let candlesticks :=
    Candlestick dates (extract_data candle_open) (extract_data candle_high)
      (extract_data candle_low) (extract_data candle_close) in
  let fig0 := {| data := []; annotations := [] |} in
  let fig1 := append_trace fig0 candlesticks in
  let volumen := Bar dates (extract_data candle_volume) in
  append_trace fig1 volumen.

(** [Chart.__get_note_position_x] *)
Definition __get_note_position_x (self : Chart) (point_date : Timestamp)
  : pyresult Z :=
  let start_posix := (value (start_date self) / 10 ^ 9)%Z in
  let end_posix := (value (end_date self) / 10 ^ 9)%Z in
  let point_difference := (end_posix - value point_date / 10 ^ 9)%Z in
  let difference := (end_posix - start_posix)%Z in
  percentage <- truediv point_difference difference ;;
  if float_ltb float_0_9 percentage then Return 100%Z
  else if float_ltb percentage float_0_1 then Return (- 100)%Z
  else Return 20%Z.

(** [Chart.delete_buy_sell_points] *)
Definition delete_buy_sell_points (self : Chart) : Chart * pyresult unit :=
  match list_getitem (data (fig self)) 0 with
  | Raise e => (self, Raise e)
  | Return d0 =>
      match list_getitem (data (fig self)) 1 with
      | Raise e => (self, Raise e)
      | Return d1 =>
          let fig1 := {| data := [d0; d1];
                         annotations := annotations (fig self) |} in
          let fig2 := {| data := data fig1; annotations := [] |} in
          (set_fig self fig2, Return tt)
      end
  end.

(** The library calls of the module, taken as parameters. *)
Section Collaborators.
(** [pd.to_datetime(date, format='%d/%m/%Y %H:%M').tz_localize(local)] *)
Variable to_datetime : string -> string -> pyresult Timestamp.
(** ['{}'.format(x)] of a number *)
Variable format_number : Q -> string.
(** [requests.get(url, params=...)] *)
Variable requests_get : string -> list (string * Z) -> pyresult Response.

(** [Chart.add_buy_sell_point] *)
Definition add_buy_sell_point (self : Chart) (label : string)
           (quantity price : Q) (date : string) : Chart * pyresult unit :=
  match to_datetime date (local self) with
  | Raise e => (self, Raise e)
  | Return point_date =>
      if ts_ltb point_date (start_date self)
         || ts_gtb point_date (end_date self)
      then (self, Return tt)
      else
        let coin := str_upper (str_drop_last3 (pair self)) in
        let annotation :=
          (str_capitalize label ++ " " ++ format_number quantity ++ " "
           ++ coin ++ " at " ++ format_number price ++ " € <br> "
           ++ date)%string in
        let color_point :=
          if String.eqb label "b" || String.eqb label "B"
          then "#bbdc86" else "#e70039" in
        let figure_point := Scatter [point_date] [price] color_point in
        let self1 := set_fig self (append_trace (fig self) figure_point) in
        match __get_note_position_x self1 point_date with
        | Raise e => (self1, Raise e)
        | Return pos =>
            let note := {| ann_x := point_date; ann_y := price;
                           ann_text := annotation; ann_ax := pos |} in
            (set_fig self1 (add_annotation (fig self1) note), Return tt)
        end
  end.

(** [_get_ohlcv_data] *)
Definition _get_ohlcv_data (pair : string) (interval : option string)
           (after before : Z) : pyresult (list Candle) :=
  let market := "kraken" in
  let url_base_api := "https://api.cryptowat.ch/markets" in
  let url_candlesticks :=
    (url_base_api ++ "/" ++ market ++ "/" ++ pair ++ "/ohlc")%string in
  let query_string := [("before", before); ("after", after)] in
  response <- requests_get url_candlesticks query_string ;;
  _ <- raise_for_status response ;;
  let data := json response in
  optimal_interval <- _get_optimal_interval interval data ;;
  match optimal_interval with
  | None => Raise (Exception "The intervals in the response are empty!")
  | Some label =>
      relevant_data <- dict_getitem (result data) label ;;
      Return relevant_data
  end.

(** The charts a caller can hold: one built on the figure of
    [__create_figure], then changed by the two public methods. *)
Inductive reachable : Chart -> Prop :=
| reach_init (self : Chart) (candles : list Candle) :
    fig self = __create_figure candles -> reachable self
| reach_add (self : Chart) (label : string) (quantity price : Q)
            (date : string) :
    reachable self ->
    reachable (fst (add_buy_sell_point self label quantity price date))
| reach_delete (self : Chart) :
    reachable self -> reachable (fst (delete_buy_sell_points self)).
End Collaborators.

(** [Chart.get_pair], [Chart.get_start_date], [Chart.get_end_date] *)
Definition get_pair (self : Chart) : string := pair self.
Definition get_start_date (self : Chart) : Timestamp := start_date self.
Definition get_end_date (self : Chart) : Timestamp := end_date self.

(** The constructor reads the clock and the file system; both are passed
    as explicit state, and their operations are parameters. *)
Section Construction.
(** [pd.to_datetime(date, format=...).tz_localize(tz)], on [date format tz] *)
Variable to_datetime_format : string -> string -> string -> pyresult Timestamp.
(** [pd.Timestamp.today(tz=...).floor('s')]: one reading of the clock, cut
    to the second; the cut raises on a wall time that occurs twice *)
Variable Clock : Type.
Variable today_floor_s : string -> Clock -> Clock * pyresult Timestamp.
(** [os.path.realpath], [os.path.isdir], [os.mkdir] *)
Variable Files : Type.
Variable realpath : string -> Files -> string.
Variable isdir : string -> Files -> bool.
Variable mkdir : string -> Files -> Files * pyresult unit.
(** [t.strftime(format)] *)
Variable strftime : Timestamp -> string -> string.
(** [requests.get(url, params=...)] *)
Variable requests_get : string -> list (string * Z) -> pyresult Response.

Record World : Type := {
  clock : Clock;
  files : Files
}.

(** [Chart.__init__]; the new object is the returned chart. *)
Definition __init__ (pair start end_ interval : string) (w : World)
  : World * pyresult Chart :=
  let format := "%d/%m/%Y" in
  let local := "Europe/Madrid" in
  let '(clock1, start_result) :=
    if truthy (Some start)
    then (clock w, to_datetime_format start format local)
    else
      let '(c, now) := today_floor_s local (clock w) in
      (c, now_s <- now ;; Return (ts_minus_1d now_s)) in
  match start_result with
  | Raise e => ({| clock := clock1; files := files w |}, Raise e)
  | Return start_date =>
      let '(clock2, end_result) :=
        if truthy (Some end_)
        then (clock1, to_datetime_format end_ format local)
        else today_floor_s local clock1 in
      match end_result with
      | Raise e => ({| clock := clock2; files := files w |}, Raise e)
      | Return end_date =>
          match
            (start_value <- timestamp_value start_date ;;
             let start_posix := (start_value / 10 ^ 9)%Z in
             end_value <- timestamp_value end_date ;;
             let end_posix := (end_value / 10 ^ 9)%Z in
             _get_ohlcv_data requests_get pair (Some interval)
               start_posix end_posix)
          with
          | Raise e => ({| clock := clock2; files := files w |}, Raise e)
          | Return data =>
              let folder_path := realpath "./archivos" (files w) in
              let '(files1, made) :=
                if negb (isdir folder_path (files w))
                then mkdir folder_path (files w)
                else (files w, Return tt) in
              match made with
              | Raise e => ({| clock := clock2; files := files1 |}, Raise e)
              | Return _ =>
                  ({| clock := clock2; files := files1 |},
                   Return
                     {| local := local;
                        file_path :=
                          (folder_path ++ "/" ++ pair ++ "_"
                           ++ strftime start_date "%d-%m-%Y" ++ "_"
                           ++ strftime end_date "%d-%m-%Y")%string;
                        pair := pair;
                        start_date := start_date;
                        end_date := end_date;
                        fig := __create_figure data |})
              end
          end
      end
  end.
End Construction.

Arguments clock {Clock Files} w.
Arguments files {Clock Files} w.
Arguments __init__ to_datetime_format {Clock} today_floor_s {Files} realpath
  isdir mkdir strftime requests_get pair start end_ interval w.

End chart.

(** ** grafico.py *)

Module grafico.

(** The two loops and the body of [_calculo_intervalo_optimo]. *)
Fixpoint contar_puntos (claves : list string) (res : pydict (list Candle))
         (intervalos : pydict nat) : pyresult (pydict nat) :=
  match claves with
  | [] => Return intervalos
  | intervalo :: resto =>
      velas <- dict_getitem res intervalo ;;
      let tamano := List.length velas in
      contar_puntos resto res (dict_setitem intervalos intervalo tamano)
  end.

Fixpoint buscar_intervalo (tamano_optimo : nat)
         (intervalos_ordenados : pydict nat) (claves : list string)
  : pyresult (option string) :=
  match claves with
  | [] => Return None
  | intervalo :: resto =>
      tamano <- dict_getitem intervalos_ordenados intervalo ;;
      if tamano_optimo <? tamano then Return (Some intervalo)
      else buscar_intervalo tamano_optimo intervalos_ordenados resto
  end.

Definition _calculo_intervalo_optimo (tiempo : option string) (datos : Data)
  : pyresult (option string) :=
  if truthy tiempo then Return tiempo
  else
    let tamano_optimo := 500 in
    intervalos <- contar_puntos (dict_keys (result datos)) (result datos) [] ;;
    let intervalos_ordenados :=
      dict_of_items (sorted snd (dict_items intervalos)) in
    encontrado <- buscar_intervalo tamano_optimo intervalos_ordenados
                    (dict_keys intervalos_ordenados) ;;
    match encontrado with
    | Some intervalo => Return (Some intervalo)
    | None =>
        ultimo <- list_last (dict_items intervalos_ordenados) ;;
        let '(intervalo, tamano) := ultimo in
        if tamano =? 0 then Return None else Return (Some intervalo)
    end.

(** The attributes of a [Grafico] object. *)
Record Grafico : Type := {
  local : string;
  ruta_archivo : string;
  par : string;
  fecha_inicial : Timestamp;
  fecha_final : Timestamp;
  fig : Figure
}.

Definition set_fig (self : Grafico) (f : Figure) : Grafico :=
  {| local := local self; ruta_archivo := ruta_archivo self; par := par self;
     fecha_inicial := fecha_inicial self; fecha_final := fecha_final self;
     fig := f |}.

(** [Grafico.borrar_puntos_compra_venta] *)
Definition borrar_puntos_compra_venta (self : Grafico)
  : Grafico * pyresult unit :=
  match list_getitem (data (fig self)) 0 with
  | Raise e => (self, Raise e)
  | Return d0 =>
      match list_getitem (data (fig self)) 1 with
      | Raise e => (self, Raise e)
      | Return d1 =>
          let fig1 := {| data := [d0; d1];
                         annotations := annotations (fig self) |} in
          let fig2 := {| data := data fig1; annotations := [] |} in
          (set_fig self fig2, Return tt)
      end
  end.

(** [Grafico.__crear_figura] *)
Definition __crear_figura (datos : list Candle) : Figure :=
  let extraer_datos := fun {A : Type} (x : Candle -> A) => map x datos in
  let fechas := map to_datetime_s (extraer_datos candle_time) in
  let velas :=
    Candlestick fechas (extraer_datos candle_open)
      (extraer_datos candle_high) (extraer_datos candle_low)
      (extraer_datos candle_close) in
  let fig0 := {| data := []; annotations := [] |} in
  let fig1 := append_trace fig0 velas in
  let volumen := Bar fechas (extraer_datos candle_volume) in
  append_trace fig1 volumen.

(** [Grafico.__calculo_posicion_nota] *)
Definition __calculo_posicion_nota (self : Grafico) (fecha_punto : Timestamp)
  : pyresult Z :=
  let posix_inicial := (value (fecha_inicial self) / 10 ^ 9)%Z in
  let posix_final := (value (fecha_final self) / 10 ^ 9)%Z in
  let diferencia_punto := (posix_final - value fecha_punto / 10 ^ 9)%Z in
  let diferencia := (posix_final - posix_inicial)%Z in
  porcentaje <- truediv diferencia_punto diferencia ;;
  if float_ltb float_0_9 porcentaje then Return 100%Z
  else if float_ltb porcentaje float_0_1 then Return (- 100)%Z
  else Return 20%Z.

(** The library calls of the module, taken as parameters. *)
Section Colaboradores.
Variable to_datetime : string -> string -> pyresult Timestamp.
Variable format_number : Q -> string.
Variable requests_get : string -> list (string * Z) -> pyresult Response.

(** [Grafico.añadir_punto_compra_venta] *)
Definition añadir_punto_compra_venta (self : Grafico) (etiqueta : string)
           (cantidad precio : Q) (fecha : string) : Grafico * pyresult unit :=
  match to_datetime fecha (local self) with
  | Raise e => (self, Raise e)
  | Return fecha_punto =>
      if ts_ltb fecha_punto (fecha_inicial self)
         || ts_gtb fecha_punto (fecha_final self)
      then (self, Return tt)
      else
        let moneda := str_upper (str_drop_last3 (par self)) in
        let anotacion :=
          (str_capitalize etiqueta ++ " " ++ format_number cantidad ++ " "
           ++ moneda ++ " a " ++ format_number precio ++ " € <br> "
           ++ fecha)%string in
        let color_punto :=
          if String.eqb etiqueta "c" || String.eqb etiqueta "C"
          then "#bbdc86" else "#e70039" in
        let figura_punto := Scatter [fecha_punto] [precio] color_punto in
        let self1 := set_fig self (append_trace (fig self) figura_punto) in
        match __calculo_posicion_nota self1 fecha_punto with
        | Raise e => (self1, Raise e)
        | Return pos =>
            let nota := {| ann_x := fecha_punto; ann_y := precio;
                           ann_text := anotacion; ann_ax := pos |} in
            (set_fig self1 (add_annotation (fig self1) nota), Return tt)
        end
  end.

(** [_obtener_datos_ohlcv] *)
Definition _obtener_datos_ohlcv (par : string) (intervalo : option string)
           (despues antes : Z) : pyresult (list Candle) :=
  let mercado := "kraken" in
  let url_base_api := "https://api.cryptowat.ch/markets" in
  let url_velas :=
    (url_base_api ++ "/" ++ mercado ++ "/" ++ par ++ "/ohlc")%string in
  let cadena_de_consulta := [("before", antes); ("after", despues)] in
  respuesta <- requests_get url_velas cadena_de_consulta ;;
  _ <- raise_for_status respuesta ;;
  let datos := json respuesta in
  intervalo_optimo <- _calculo_intervalo_optimo intervalo datos ;;
  match intervalo_optimo with
  | None => Raise (Exception "Los intervalos en la respuesta están vacíos!")
  | Some etiqueta =>
      datos_relevantes <- dict_getitem (result datos) etiqueta ;;
      Return datos_relevantes
  end.
End Colaboradores.

End grafico.

(** * Vocabulary of the claims *)

(** Ascending by key. *)
Definition key_le {A : Type} (key : A -> nat) (a b : A) : Prop :=
  key a <= key b.

(** The bucket mapping of a response: label to number of points. *)
Definition counts (res : pydict (list Candle)) : pydict nat :=
  map (fun kv => (fst kv, List.length (snd kv))) res.

(** Walking an ordered sequence of buckets: the first one above 500 points,
    else the last one unless it is empty. *)
Definition walk (order : list (string * nat)) : pyresult (option string) :=
  match find (fun kv => 500 <? snd kv) order with
  | Some kv => Return (Some (fst kv))
  | None =>
      last <- list_last order ;;
      if snd last =? 0 then Return None else Return (Some (fst last))
  end.

(** [l] comes before [l'] in a sequence of labels. *)
Definition appears_before (l l' : string) (keys : list string) : Prop :=
  exists a b c, keys = a ++ l :: b ++ l' :: c.

(** POSIX seconds of a timestamp: [t.value // 10 ** 9]. *)
Definition posix (t : Timestamp) : Z := (value t / 10 ^ 9)%Z.


(** The kinds of trace a figure holds. *)
Definition is_candlestick (t : Trace) : Prop :=
  match t with Candlestick _ _ _ _ _ => True | _ => False end.

Definition is_bar (t : Trace) : Prop :=
  match t with Bar _ _ => True | _ => False end.

Definition is_marker (t : Trace) : Prop :=
  match t with Scatter _ _ _ => True | _ => False end.

(** A float of the model as a float of the IEEE 754 specification of the
    standard library, and an int as such a float. *)
Definition to_spec_float (f : float) : spec_float :=
  match mant f with
  | Z0 => S754_zero false
  | Zpos m => S754_finite false m (expo f)
  | Zneg m => S754_finite true m (expo f)
  end.

Definition spec_of_int (a : Z) : spec_float :=
  binary_normalize 53 1024 a 0 false.

(** * Sample inputs *)

Definition sample_candle : Candle :=
  {| candle_time := 1516406400; candle_open := 9000; candle_high := 9100;
     candle_low := 8900; candle_close := 9050; candle_volume := 12 # 10 |}.

Definition bucket (points : nat) : list Candle := repeat sample_candle points.

(** Three granularities, two of them above the target size. *)
Definition dense_data : Data :=
  {| result := [("60", bucket 720); ("180", bucket 501); ("3600", bucket 24)] |}.

(** Every granularity at or below the target size. *)
Definition sparse_data : Data :=
  {| result := [("60", bucket 100); ("180", bucket 300); ("3600", bucket 24)] |}.

(** Two buckets of the same size above the target. *)
Definition tied_data : Data :=
  {| result := [("900", bucket 620); ("300", bucket 510); ("180", bucket 510)] |}.

(** Granularities without a single point. *)
Definition empty_data : Data :=
  {| result := [("60", []); ("180", [])] |}.

Definition sample_requests_get (body : Data) (url : string)
           (params : list (string * Z)) : pyresult Response :=
  Return {| status_code := 200; json := body |}.

(** A chart over the range of 0 to 1000 seconds. *)
Definition sample_chart : chart.Chart :=
  {| chart.local := "Europe/Madrid";
     chart.file_path := "./archivos/btceur_01-01-1970_01-01-1970";
     chart.pair := "btceur";
     chart.start_date := to_datetime_s 0;
     chart.end_date := to_datetime_s 1000;
     chart.fig := chart.__create_figure (bucket 3) |}.

(** A chart whose range has no length. *)
Definition degenerate_chart : chart.Chart :=
  {| chart.local := "Europe/Madrid";
     chart.file_path := "./archivos/btceur_01-01-1970_01-01-1970";
     chart.pair := "btceur";
     chart.start_date := to_datetime_s 1000;
     chart.end_date := to_datetime_s 1000;
     chart.fig := chart.__create_figure (bucket 3) |}.

(** A stand-in for the date parser: seconds written in decimal. *)
Definition sample_to_datetime (date tz : string) : pyresult Timestamp :=
  if String.eqb date "0" then Return (to_datetime_s 0)
  else if String.eqb date "50" then Return (to_datetime_s 50)
  else if String.eqb date "1000" then Return (to_datetime_s 1000)
  else if String.eqb date "2000" then Return (to_datetime_s 2000)
  else Raise ValueError.

Definition sample_format_number (x : Q) : string := "0.0002".

(** * Vocabulary of the further properties *)

(** The arguments of one [add_buy_sell_point] call:
    label, quantity, price, date. *)
Definition marker_call : Type := string * Q * Q * string.

(** A sequence of [add_buy_sell_point] calls on one chart, each call made
    whatever the one before it returned or raised. *)
Definition add_all (to_datetime : string -> string -> pyresult Timestamp)
           (format_number : Q -> string) (self : chart.Chart)
           (calls : list marker_call) : chart.Chart :=
  fold_left
    (fun c call =>
       let '(label, quantity, price, date) := call in
       fst (chart.add_buy_sell_point to_datetime format_number c label
              quantity price date))
    calls self.

(** The [Chart] with the attributes of a [Grafico]. *)
Definition to_chart (g : grafico.Grafico) : chart.Chart :=
  {| chart.local := grafico.local g;
     chart.file_path := grafico.ruta_archivo g;
     chart.pair := grafico.par g;
     chart.start_date := grafico.fecha_inicial g;
     chart.end_date := grafico.fecha_final g;
     chart.fig := grafico.fig g |}.

(** Where an annotation is drawn: its point and its horizontal offset. *)
Definition ann_position (a : Annotation) : Timestamp * Q * Z :=
  (ann_x a, ann_y a, ann_ax a).

(** pandas keeps the least int64 for [NaT], the result of parsing a date
    such as ['NaT']; a timestamp with any other value is an instant.  Every
    ordering comparison with [NaT] is false in pandas, so a property of the
    range test is stated for instants. *)
Definition is_instant (t : Timestamp) : Prop := value t <> (- 2 ^ 63)%Z.

(** The address [_get_ohlcv_data] requests. *)
Definition ohlc_url (pair : string) : string :=
  ("https://api.cryptowat.ch/markets/kraken/" ++ pair ++ "/ohlc")%string.

(** * Further sample inputs *)

(** A clock that advances by one second at each reading. *)
Definition sample_today (tz : string) (c : Z) : Z * pyresult Timestamp :=
  ((c + 10 ^ 9)%Z, Return {| value := c - c mod 10 ^ 9 |}).

(** A file system: the directories that exist. *)
Definition sample_realpath (path : string) (fs : list string) : string :=
  ("/home/user/" ++ path)%string.

Definition sample_isdir (path : string) (fs : list string) : bool :=
  existsb (String.eqb path) fs.

Definition sample_mkdir (path : string) (fs : list string)
  : list string * pyresult unit :=
  (path :: fs, Return tt).

(** A stand-in for the day parser: days written as a number of seconds. *)
Definition sample_to_datetime_format (date format tz : string)
  : pyresult Timestamp :=
  if String.eqb date "0" then Return (to_datetime_s 0)
  else if String.eqb date "86400" then Return (to_datetime_s 86400)
  else if String.eqb date "far" then Return {| value := 2 ^ 70 |}
  else Raise ValueError.

Definition sample_strftime (t : Timestamp) (format : string) : string :=
  "01-01-1970".

(** A request that fails before any response arrives. *)
Definition failing_requests_get (url : string) (params : list (string * Z))
  : pyresult Response :=
  Raise (Exception "connection refused").

(** A response with an error status. *)
Definition error_requests_get (url : string) (params : list (string * Z))
  : pyresult Response :=
  Return {| status_code := 429; json := dense_data |}.

(** Buckets tied at the largest size, all below the target. *)
Definition tied_sparse_data : Data :=
  {| result := [("60", bucket 300); ("180", bucket 24); ("300", bucket 300)] |}.

(** The buckets of [dense_data] in another order. *)
Definition dense_data_reordered : Data :=
  {| result := [("3600", bucket 24); ("180", bucket 501); ("60", bucket 720)] |}.

(** The sizes of [dense_data] with other candles. *)
Definition other_candle : Candle :=
  {| candle_time := 1616406400; candle_open := 48000; candle_high := 48500;
     candle_low := 47000; candle_close := 47200; candle_volume := 3 # 10 |}.

Definition dense_data_other : Data :=
  {| result := [("60", repeat other_candle 720);
                ("180", repeat other_candle 501);
                ("3600", repeat other_candle 24)] |}.

(** A small response. *)
Definition small_data : Data :=
  {| result := [("60", bucket 3); ("3600", bucket 1)] |}.

(** A world whose clock shows ten days and a half second after the epoch
    and where no folder exists yet. *)
Definition sample_world : chart.World Z (list string) :=
  {| chart.clock := 864000500000000%Z; chart.files := [] |}.

(** Three calls: inside the range, after it, on its end. *)
Definition sample_calls : list marker_call :=
  [("b", 2 # 10000, 40000%Q, "50"); ("s", 2 # 10000, 41000%Q, "2000");
   ("s", 1 # 10000, 42000%Q, "1000")].

(** A chart whose start is after its end. *)
Definition inverted_chart : chart.Chart :=
  {| chart.local := "Europe/Madrid";
     chart.file_path := "./archivos/btceur_01-01-1970_01-01-1970";
     chart.pair := "btceur";
     chart.start_date := to_datetime_s 1000;
     chart.end_date := to_datetime_s 0;
     chart.fig := chart.__create_figure (bucket 3) |}.

(** A [Grafico] with the attributes of [sample_chart]. *)
Definition sample_grafico : grafico.Grafico :=
  {| grafico.local := "Europe/Madrid";
     grafico.ruta_archivo := "./archivos/btceur_01-01-1970_01-01-1970";
     grafico.par := "btceur";
     grafico.fecha_inicial := to_datetime_s 0;
     grafico.fecha_final := to_datetime_s 1000;
     grafico.fig := grafico.__crear_figura (bucket 3) |}.

(** * Properties *)

(** ** Dictionaries *)

Section DictFacts.
Context {V : Type}.
Implicit Types (d : pydict V) (k : string) (v : V).

Lemma dict_getitem_fresh d k :
  ~ In k (dict_keys d) -> dict_getitem d k = Raise (KeyError k).
Proof.
  induction d as [|[k' v'] d IH]; simpl; intros Hk; [reflexivity|].
  destruct (String.eqb_spec k' k) as [->|Hne]; [tauto|].
  apply IH. tauto.
Qed.

Lemma dict_getitem_In d k v :
  dict_getitem d k = Return v -> In (k, v) d.
Proof.
  induction d as [|[k' v'] d IH]; simpl; [discriminate|].
  destruct (String.eqb_spec k' k) as [->|Hne].
  - intros [= ->]. now left.
  - intros H. right. now apply IH.
Qed.

Lemma In_dict_getitem d k v :
  dict_wf d -> In (k, v) d -> dict_getitem d k = Return v.
Proof.
  unfold dict_wf.
  induction d as [|[k' v'] d IH]; simpl; intros Hnd Hin; [contradiction|].
  inversion Hnd as [|? ? Hfresh Hnd']; subst.
  destruct Hin as [[= -> ->]|Hin].
  - now rewrite String.eqb_refl.
  - destruct (String.eqb_spec k' k) as [->|Hne].
    + exfalso. apply Hfresh. change k with (fst (k, v)). now apply in_map.
    + now apply IH.
Qed.

Lemma dict_getitem_middle (pre suf : pydict V) k v :
  dict_wf (pre ++ (k, v) :: suf) ->
  dict_getitem (pre ++ (k, v) :: suf) k = Return v.
Proof.
  intros Hwf. apply In_dict_getitem; [exact Hwf|].
  apply in_or_app. right. now left.
Qed.

Lemma dict_setitem_fresh d k v :
  ~ In k (dict_keys d) -> dict_setitem d k v = d ++ [(k, v)].
Proof.
  induction d as [|[k' v'] d IH]; simpl; intros Hk; [reflexivity|].
  destruct (String.eqb_spec k' k) as [->|Hne]; [tauto|].
  rewrite IH; tauto.
Qed.

Lemma dict_keys_app (d1 d2 : pydict V) :
  dict_keys (d1 ++ d2) = dict_keys d1 ++ dict_keys d2.
Proof. apply map_app. Qed.

Lemma dict_wf_middle_fresh (pre suf : pydict V) k v :
  dict_wf (pre ++ (k, v) :: suf) -> ~ In k (dict_keys pre).
Proof.
  unfold dict_wf. rewrite dict_keys_app. simpl. intros Hnd Hin.
  apply NoDup_remove_2 in Hnd. apply Hnd. apply in_or_app. now left.
Qed.

Lemma dict_of_items_from (acc pairs : list (string * V)) :
  dict_wf (acc ++ pairs) ->
  fold_left (fun d kv => dict_setitem d (fst kv) (snd kv)) pairs acc
  = acc ++ pairs.
Proof.
  revert acc. induction pairs as [|[k v] pairs IH]; intros acc Hwf; simpl.
  - now rewrite app_nil_r.
  - rewrite dict_setitem_fresh by (eapply dict_wf_middle_fresh; eauto).
    rewrite IH; rewrite <- app_assoc; simpl; auto.
Qed.

Lemma dict_of_items_wf (pairs : list (string * V)) :
  dict_wf pairs -> dict_of_items pairs = pairs.
Proof. intros Hwf. unfold dict_of_items. now rewrite dict_of_items_from. Qed.

Lemma dict_wf_perm (d1 d2 : pydict V) :
  Permutation d1 d2 -> dict_wf d1 -> dict_wf d2.
Proof.
  unfold dict_wf, dict_keys. intros Hp.
  apply Permutation_NoDup. now apply Permutation_map.
Qed.
End DictFacts.

(** ** The stable sort *)

Section SortedFacts.
Context {A : Type} (key : A -> nat).

Lemma insert_by_perm x l : Permutation (insert_by key x l) (x :: l).
Proof.
  induction l as [|y l IH]; simpl; [reflexivity|].
  destruct (key x <=? key y); [reflexivity|].
  rewrite IH. apply perm_swap.
Qed.

Lemma sorted_perm l : Permutation (sorted key l) l.
Proof.
  induction l as [|x l IH]; simpl; [reflexivity|].
  rewrite insert_by_perm. now constructor.
Qed.

Lemma insert_by_sorted x l :
  StronglySorted (key_le key) l -> StronglySorted (key_le key) (insert_by key x l).
Proof.
  induction 1 as [|y l Hs IH Hall]; simpl.
  - repeat constructor.
  - destruct (Nat.leb_spec (key x) (key y)) as [Hle|Hgt].
    + constructor; [now constructor|].
      constructor; [exact Hle|].
      eapply Forall_impl; [|exact Hall].
      unfold key_le. intros; lia.
    + constructor; [exact IH|].
      eapply Permutation_Forall; [symmetry; apply insert_by_perm|].
      constructor; [unfold key_le; lia | exact Hall].
Qed.

Lemma sorted_sorted l : StronglySorted (key_le key) (sorted key l).
Proof.
  induction l as [|x l IH]; simpl; [constructor|].
  now apply insert_by_sorted.
Qed.

Lemma insert_by_stable c x l :
  filter (fun a => key a =? c) (insert_by key x l)
  = filter (fun a => key a =? c) (x :: l).
Proof.
  induction l as [|y l IH]; [reflexivity|].
  cbn [insert_by].
  destruct (Nat.leb_spec (key x) (key y)) as [Hle|Hgt]; [reflexivity|].
  cbn [filter] in *. rewrite IH.
  destruct (Nat.eqb_spec (key x) c), (Nat.eqb_spec (key y) c);
    try reflexivity; lia.
Qed.

Lemma sorted_stable c l :
  filter (fun a => key a =? c) (sorted key l)
  = filter (fun a => key a =? c) l.
Proof.
  induction l as [|x l IH]; [reflexivity|].
  cbn [sorted]. rewrite insert_by_stable. cbn [filter]. now rewrite IH.
Qed.
(** A sequence that is ascending by key is fixed by its elements of each
    key, in their order: every stable sort returns what [sorted] does. *)
Lemma stable_sort_unique (l1 l2 : list A) :
  StronglySorted (key_le key) l1 -> StronglySorted (key_le key) l2 ->
  (forall c, filter (fun a => key a =? c) l1
             = filter (fun a => key a =? c) l2) ->
  l1 = l2.
Proof.
  intros H1. revert l2.
  induction H1 as [|x r1 Hs1 IH Hall1]; intros l2 H2 Hf.
  - destruct l2 as [|y r2]; [reflexivity|].
    specialize (Hf (key y)). cbn [filter] in Hf.
    rewrite Nat.eqb_refl in Hf. discriminate.
  - destruct H2 as [|y r2 Hs2 Hall2].
    + specialize (Hf (key x)). cbn [filter] in Hf.
      rewrite Nat.eqb_refl in Hf. discriminate.
    + rewrite Forall_forall in Hall1, Hall2. unfold key_le in Hall1, Hall2.
      assert (Hk : key x = key y).
      { apply Nat.le_antisymm.
        - pose proof (Hf (key y)) as Hy. cbn [filter] in Hy.
          rewrite Nat.eqb_refl in Hy.
          assert (Hin : In y (filter (fun a => key a =? key y) (x :: r1))).
          { cbn [filter]. rewrite Hy. now left. }
          apply filter_In in Hin. destruct Hin as [[<-|Hin] _]; [lia|].
          now apply Hall1.
        - pose proof (Hf (key x)) as Hx. cbn [filter] in Hx.
          rewrite Nat.eqb_refl in Hx.
          assert (Hin : In x (filter (fun a => key a =? key x) (y :: r2))).
          { cbn [filter]. rewrite <- Hx. now left. }
          apply filter_In in Hin. destruct Hin as [[<-|Hin] _]; [lia|].
          now apply Hall2. }
      pose proof (Hf (key x)) as Hx. cbn [filter] in Hx.
      rewrite <- Hk, Nat.eqb_refl in Hx. injection Hx as <- Hx.
      f_equal. apply IH; [exact Hs2|].
      intros c. specialize (Hf c). cbn [filter] in Hf.
      destruct (key x =? c); [now injection Hf | exact Hf].
Qed.
End SortedFacts.

(** ** The interval selector *)

Lemma dict_keys_counts res : dict_keys (counts res) = dict_keys res.
Proof.
  unfold counts, dict_keys. rewrite map_map. reflexivity.
Qed.

Lemma counts_wf res : dict_wf res -> dict_wf (counts res).
Proof. unfold dict_wf. now rewrite dict_keys_counts. Qed.

Lemma counts_app res1 res2 : counts (res1 ++ res2) = counts res1 ++ counts res2.
Proof. apply map_app. Qed.

Lemma counts_getitem res l cs :
  dict_wf res -> dict_getitem res l = Return cs ->
  dict_getitem (counts res) l = Return (List.length cs).
Proof.
  intros Hwf Hget. apply In_dict_getitem; [now apply counts_wf|].
  apply dict_getitem_In in Hget.
  change (l, List.length cs)
    with ((fun kv : string * list Candle => (fst kv, List.length (snd kv))) (l, cs)).
  now apply in_map.
Qed.

Lemma counts_In res l n :
  dict_wf res -> In (l, n) (counts res) ->
  exists cs, dict_getitem res l = Return cs /\ List.length cs = n.
Proof.
  intros Hwf Hin. unfold counts in Hin. apply in_map_iff in Hin.
  destruct Hin as [[l' cs] [[= <- <-] Hin]].
  exists cs. split; [now apply In_dict_getitem | reflexivity].
Qed.

Lemma count_points_from (pre suf : pydict (list Candle)) :
  dict_wf (pre ++ suf) ->
  chart.count_points (dict_keys suf) (pre ++ suf) (counts pre)
  = Return (counts (pre ++ suf)).
Proof.
  revert pre. induction suf as [|[k cs] suf IH]; intros pre Hwf.
  - now rewrite app_nil_r.
  - cbn [dict_keys map fst chart.count_points].
    rewrite dict_getitem_middle by exact Hwf. cbn [bind].
    rewrite dict_setitem_fresh.
    2:{ rewrite dict_keys_counts. eapply dict_wf_middle_fresh; eauto. }
    specialize (IH (pre ++ [(k, cs)])).
    rewrite <- app_assoc in IH. cbn [app] in IH.
    rewrite counts_app in IH. apply IH. exact Hwf.
Qed.

Lemma count_points_spec (res : pydict (list Candle)) :
  dict_wf res ->
  chart.count_points (dict_keys res) res [] = Return (counts res).
Proof. intros Hwf. now apply (count_points_from [] res). Qed.

Lemma search_interval_from n (pre suf : pydict nat) :
  dict_wf (pre ++ suf) ->
  chart.search_interval n (pre ++ suf) (dict_keys suf)
  = Return (option_map fst (find (fun kv => n <? snd kv) suf)).
Proof.
  revert pre. induction suf as [|[k c] suf IH]; intros pre Hwf.
  - reflexivity.
  - cbn [dict_keys map fst chart.search_interval find snd].
    rewrite dict_getitem_middle by exact Hwf. cbn [bind].
    destruct (n <? c); [reflexivity|].
    specialize (IH (pre ++ [(k, c)])).
    rewrite <- app_assoc in IH. cbn [app] in IH. now apply IH.
Qed.

Lemma optimal_interval_walk (time : option string) (data : Data) :
  dict_wf (result data) -> truthy time = false ->
  chart._get_optimal_interval time data
  = walk (sorted snd (counts (result data))).
Proof.
  intros Hwf Hfalsy. unfold chart._get_optimal_interval. rewrite Hfalsy.
  rewrite count_points_spec by exact Hwf. cbn [bind]. unfold dict_items.
  assert (Hs : dict_wf (sorted snd (counts (result data)))).
  { eapply dict_wf_perm; [symmetry; apply sorted_perm|]. now apply counts_wf. }
  rewrite dict_of_items_wf by exact Hs.
  pose proof (search_interval_from 500 [] _ Hs) as Hsearch.
  cbn [app] in Hsearch. rewrite Hsearch. cbn [bind].
  unfold walk.
  destruct (find _ _) as [[k c]|]; cbn [option_map fst]; [reflexivity|].
  destruct (list_last _) as [[k c]|e]; reflexivity.
Qed.

(** *** The two modules agree *)

Lemma contar_puntos_eq claves res intervalos :
  grafico.contar_puntos claves res intervalos
  = chart.count_points claves res intervalos.
Proof.
  revert intervalos. induction claves as [|k claves IH]; intros; simpl.
  - reflexivity.
  - destruct (dict_getitem res k); simpl; auto.
Qed.

Lemma buscar_intervalo_eq n d claves :
  grafico.buscar_intervalo n d claves = chart.search_interval n d claves.
Proof.
  induction claves as [|k claves IH]; simpl; [reflexivity|].
  destruct (dict_getitem d k); simpl; [|reflexivity].
  now rewrite IH.
Qed.

(** *** Walking a sorted sequence *)

Section WalkFacts.
Context {A : Type} (key : A -> nat).

Lemma find_sorted_least n (l : list A) x :
  StronglySorted (key_le key) l ->
  find (fun a => n <? key a) l = Some x ->
  In x l /\ n < key x /\ forall y, In y l -> n < key y -> key x <= key y.
Proof.
  induction 1 as [|h l Hs IH Hall]; cbn [find]; [discriminate|].
  destruct (Nat.ltb_spec n (key h)) as [Hlt|Hge].
  - intros [= <-]. split; [now left|]. split; [exact Hlt|].
    intros y [<-|Hy] _; [lia|].
    rewrite Forall_forall in Hall. now apply Hall.
  - intros Hfind. destruct (IH Hfind) as (Hin & Hx & Hmin).
    split; [now right|]. split; [exact Hx|].
    intros y [<-|Hy] Hy'; [lia|]. now apply Hmin.
Qed.

Lemma find_exists (p : A -> bool) (l : list A) y :
  In y l -> p y = true -> exists x, find p l = Some x.
Proof.
  intros Hin Hp. destruct (find p l) as [x|] eqn:E; [now exists x|].
  pose proof (find_none p l E y Hin). congruence.
Qed.

Lemma list_last_In (l : list A) x : list_last l = Return x -> In x l.
Proof.
  induction l as [|h l IH]; cbn [list_last]; [discriminate|].
  destruct l as [|h' l]; [intros [= <-]; now left|].
  intros H. right. now apply IH.
Qed.

Lemma list_last_sorted_greatest (l : list A) x :
  StronglySorted (key_le key) l -> list_last l = Return x ->
  forall y, In y l -> key y <= key x.
Proof.
  induction 1 as [|h l Hs IH Hall]; cbn [list_last]; [discriminate|].
  destruct l as [|h' l].
  - intros [= <-] y [<-|[]]. lia.
  - intros Hlast y [<-|Hy]; [|now apply IH].
    rewrite Forall_forall in Hall.
    apply (Hall x). now apply list_last_In.
Qed.

Lemma list_last_nonempty (l : list A) :
  l <> [] -> exists x, list_last l = Return x.
Proof.
  induction l as [|h l IH]; [congruence|]. intros _.
  destruct l as [|h' l]; [now exists h|].
  destruct IH as [x Hx]; [discriminate|]. now exists x.
Qed.

Lemma find_head_filter (p q : A -> bool) (l : list A) x :
  find p l = Some x -> q x = true ->
  (forall y, q y = true -> p y = true) ->
  exists t, filter q l = x :: t.
Proof.
  intros Hfind Hqx Hqp. induction l as [|h l IH]; [discriminate|].
  cbn [find filter] in *. destruct (p h) eqn:Eh.
  - injection Hfind as ->. rewrite Hqx. eauto.
  - destruct (q h) eqn:Eq; [|now apply IH].
    apply Hqp in Eq. congruence.
Qed.

Lemma filter_head_split (q : A -> bool) (l : list A) x t :
  filter q l = x :: t ->
  exists a b, l = a ++ x :: b /\ Forall (fun y => q y = false) a.
Proof.
  induction l as [|h l IH]; [discriminate|]. cbn [filter].
  destruct (q h) eqn:Eq.
  - intros [= -> _]. exists [], l. split; [reflexivity | constructor].
  - intros Hf. destruct (IH Hf) as (a & b & -> & Ha).
    exists (h :: a), b. split; [reflexivity | now constructor].
Qed.
End WalkFacts.

Lemma In_sorted_counts res l n :
  dict_wf res ->
  In (l, n) (sorted snd (counts res)) <->
  exists cs, dict_getitem res l = Return cs /\ List.length cs = n.
Proof.
  intros Hwf. split.
  - intros Hin. apply counts_In; [exact Hwf|].
    eapply Permutation_in; [apply sorted_perm | exact Hin].
  - intros (cs & Hget & <-).
    eapply Permutation_in; [symmetry; apply sorted_perm|].
    apply dict_getitem_In. now apply counts_getitem.
Qed.

(** ** Claims about the interval selector *)

(** C1. When at least one bucket holds more than 500 points, the selector
    called without a forced interval returns a label whose count exceeds
    500, and no bucket above 500 has a smaller count. *)
Theorem C1_first_above_target (time : option string) (data : Data) :
  dict_wf (result data) -> truthy time = false ->
  (exists l cs, dict_getitem (result data) l = Return cs /\ 500 < List.length cs) ->
  exists l cs,
    chart._get_optimal_interval time data = Return (Some l)
    /\ dict_getitem (result data) l = Return cs
    /\ 500 < List.length cs
    /\ forall l' cs', dict_getitem (result data) l' = Return cs' ->
                      500 < List.length cs' -> List.length cs <= List.length cs'.
Proof.
  intros Hwf Hfalsy (l1 & cs1 & Hget1 & Hbig1).
  rewrite optimal_interval_walk by assumption. unfold walk.
  set (order := sorted snd (counts (result data))).
  assert (Hin1 : In (l1, List.length cs1) order)
    by (apply In_sorted_counts; eauto).
  destruct (find_exists (fun kv => 500 <? snd kv) order _ Hin1) as [[l c] Hfind].
  { cbn [snd]. now apply Nat.ltb_lt. }
  rewrite Hfind.
  destruct (find_sorted_least snd 500 order (l, c) (sorted_sorted snd _) Hfind)
    as (Hin & Hbig & Hleast).
  apply In_sorted_counts in Hin; [|exact Hwf]. destruct Hin as (cs & Hget & <-).
  exists l, cs. repeat split; auto.
  intros l' cs' Hget' Hbig'.
  apply (Hleast (l', List.length cs')); [|exact Hbig'].
  apply In_sorted_counts; eauto.
Qed.

Lemma find_all_false {A : Type} (p : A -> bool) (l : list A) :
  (forall x, In x l -> p x = false) -> find p l = None.
Proof.
  intros H. destruct (find p l) as [x|] eqn:E; [|reflexivity].
  apply find_some in E. destruct E as [Hin Hp]. rewrite (H x Hin) in Hp.
  discriminate.
Qed.

Lemma sorted_counts_nonempty res l cs :
  dict_wf res -> dict_getitem res l = Return cs ->
  sorted snd (counts res) <> [].
Proof.
  intros Hwf Hget Hnil.
  assert (Hin : In (l, List.length cs) (sorted snd (counts res)))
    by (apply In_sorted_counts; eauto).
  rewrite Hnil in Hin. contradiction.
Qed.

(** C2. When no bucket holds more than 500 points and some bucket is not
    empty, the selector called without a forced interval returns a label
    whose count is the largest of the mapping. *)
Theorem C2_fallback_largest (time : option string) (data : Data) :
  dict_wf (result data) -> truthy time = false ->
  (forall l cs, dict_getitem (result data) l = Return cs -> List.length cs <= 500) ->
  (exists l cs, dict_getitem (result data) l = Return cs /\ 0 < List.length cs) ->
  exists l cs,
    chart._get_optimal_interval time data = Return (Some l)
    /\ dict_getitem (result data) l = Return cs
    /\ forall l' cs', dict_getitem (result data) l' = Return cs' ->
                      List.length cs' <= List.length cs.
Proof.
  intros Hwf Hfalsy Hsmall (l1 & cs1 & Hget1 & Hpos1).
  rewrite optimal_interval_walk by assumption. unfold walk.
  set (order := sorted snd (counts (result data))).
  rewrite find_all_false.
  2:{ intros [l c] Hin. apply In_sorted_counts in Hin; [|exact Hwf].
      destruct Hin as (cs & Hget & <-). cbn [snd].
      apply Nat.ltb_ge. eauto. }
  destruct (list_last_nonempty order) as [[l c] Hlast].
  { eapply sorted_counts_nonempty; eauto. }
  rewrite Hlast. cbn [bind snd fst].
  pose proof (list_last_sorted_greatest snd order (l, c)
                (sorted_sorted snd _) Hlast) as Hmax.
  assert (Hin1 : In (l1, List.length cs1) order)
    by (apply In_sorted_counts; eauto).
  pose proof (Hmax _ Hin1) as Hc. cbn [snd] in Hc.
  apply list_last_In in Hlast. apply In_sorted_counts in Hlast; [|exact Hwf].
  destruct Hlast as (cs & Hget & <-).
  destruct (Nat.eqb_spec (List.length cs) 0) as [H0|_]; [lia|].
  exists l, cs. repeat split; auto.
  intros l' cs' Hget'.
  apply (Hmax (l', List.length cs')). apply In_sorted_counts; eauto.
Qed.

(** C3. When the mapping is not empty and every bucket is empty, the
    selector called without a forced interval returns [None], and
    [_get_ohlcv_data] then raises its "intervals are empty" exception
    instead of returning candles. *)
Theorem C3_all_empty_raises (time : option string) (data : Data) :
  dict_wf (result data) -> truthy time = false ->
  result data <> [] ->
  (forall l cs, dict_getitem (result data) l = Return cs -> List.length cs = 0) ->
  chart._get_optimal_interval time data = Return None
  /\ forall (requests_get : string -> list (string * Z) -> pyresult Response)
            (pair : string) (after before : Z) (response : Response),
      requests_get
        ("https://api.cryptowat.ch/markets/kraken/" ++ pair ++ "/ohlc")%string
        [("before", before); ("after", after)] = Return response ->
      raise_for_status response = Return tt ->
      json response = data ->
      chart._get_ohlcv_data requests_get pair time after before
      = Raise (Exception "The intervals in the response are empty!").
Proof.
  intros Hwf Hfalsy Hne Hzero.
  assert (Hsel : chart._get_optimal_interval time data = Return None).
  { rewrite optimal_interval_walk by assumption. unfold walk.
    set (order := sorted snd (counts (result data))).
    rewrite find_all_false.
    2:{ intros [l c] Hin. apply In_sorted_counts in Hin; [|exact Hwf].
        destruct Hin as (cs & Hget & <-). cbn [snd].
        rewrite (Hzero _ _ Hget). reflexivity. }
    destruct (result data) as [|[l0 cs0] rest] eqn:Eres; [congruence|].
    destruct (list_last_nonempty order) as [[l c] Hlast].
    { subst order. rewrite <- Eres in *.
      apply (sorted_counts_nonempty _ l0 cs0); [exact Hwf|].
      rewrite Eres. cbn [dict_getitem]. now rewrite String.eqb_refl. }
    rewrite Hlast. cbn [bind snd fst].
    apply list_last_In in Hlast. subst order. rewrite <- Eres in *.
    apply In_sorted_counts in Hlast; [|exact Hwf].
    destruct Hlast as (cs & Hget & <-).
    now rewrite (Hzero _ _ Hget). }
  split; [exact Hsel|].
  intros requests_get pair after before response Hreq Hstatus Hjson.
  unfold chart._get_ohlcv_data.
  cbn [String.append] in Hreq |- *. rewrite Hreq. cbn [bind].
  rewrite Hstatus. cbn [bind]. rewrite Hjson, Hsel. reflexivity.
Qed.

(** C4. A non-empty forced interval is returned unchanged, whatever the
    bucket mapping holds; it is not looked up in the mapping. *)
Theorem C4_forced_interval (forced : string) (data : Data) :
  forced <> ""%string ->
  chart._get_optimal_interval (Some forced) data = Return (Some forced).
Proof.
  intros Hne. unfold chart._get_optimal_interval.
  destruct forced as [|c s]; [congruence | reflexivity].
Qed.

(** C8. Without a forced interval the selector walks the buckets in
    ascending order of count, buckets of equal count keeping the order of
    the mapping; a returned label above 500 points comes before every
    other label of the same count in the mapping. *)
Theorem C8_stable_tie_break (time : option string) (data : Data) :
  dict_wf (result data) -> truthy time = false ->
  exists order : list (string * nat),
    Permutation order (counts (result data))
    /\ StronglySorted (key_le snd) order
    /\ (forall c, filter (fun kv => snd kv =? c) order
                  = filter (fun kv => snd kv =? c) (counts (result data)))
    /\ chart._get_optimal_interval time data = walk order
    /\ forall l cs l' cs',
         chart._get_optimal_interval time data = Return (Some l) ->
         dict_getitem (result data) l = Return cs -> 500 < List.length cs ->
         dict_getitem (result data) l' = Return cs' ->
         List.length cs' = List.length cs -> l' <> l ->
         appears_before l l' (dict_keys (result data)).
Proof.
  intros Hwf Hfalsy. exists (sorted snd (counts (result data))).
  split; [apply sorted_perm|]. split; [apply sorted_sorted|].
  split; [intros c; apply sorted_stable|].
  split; [now apply optimal_interval_walk|].
  intros l cs l' cs' Hret Hget Hbig Hget' Hlen Hneq.
  rewrite optimal_interval_walk in Hret by assumption. unfold walk in Hret.
  set (order := sorted snd (counts (result data))) in *.
  assert (Hin : In (l, List.length cs) order) by (apply In_sorted_counts; eauto).
  destruct (find_exists (fun kv => 500 <? snd kv) order _ Hin) as [[l0 c0] Hfind].
  { cbn [snd]. now apply Nat.ltb_lt. }
  rewrite Hfind in Hret. cbn [fst] in Hret. injection Hret as ->.
  assert (Hc0 : c0 = List.length cs).
  { apply find_some in Hfind. destruct Hfind as [Hin0 _].
    apply In_sorted_counts in Hin0; [|exact Hwf].
    destruct Hin0 as (cs0 & Hget0 & <-). congruence. }
  subst c0.
  set (q := fun kv : string * nat => snd kv =? List.length cs).
  destruct (find_head_filter _ q order _ Hfind) as [t Ht].
  { unfold q. cbn [snd]. apply Nat.eqb_refl. }
  { intros [k c]. unfold q. cbn [snd]. intros Hq.
    apply Nat.eqb_eq in Hq. subst c. now apply Nat.ltb_lt. }
  unfold q, order in Ht. rewrite sorted_stable in Ht.
  destruct (filter_head_split _ _ _ _ Ht) as (a & b & Hsplit & Ha).
  assert (Hin' : In (l', List.length cs) (counts (result data))).
  { rewrite <- Hlen. apply dict_getitem_In. now apply counts_getitem. }
  rewrite Hsplit in Hin'. apply in_app_or in Hin'.
  destruct Hin' as [Hin'|[Heq|Hin']].
  - rewrite Forall_forall in Ha. apply Ha in Hin'. cbn [snd] in Hin'.
    rewrite Nat.eqb_refl in Hin'. discriminate.
  - congruence.
  - apply in_split in Hin'. destruct Hin' as (b1 & b2 & ->).
    exists (map fst a), (map fst b1), (map fst b2).
    rewrite <- dict_keys_counts, Hsplit. unfold dict_keys.
    rewrite map_app. cbn [map fst]. rewrite map_app. reflexivity.
Qed.

(** C9. The selectors of [chart.py] and [grafico.py] return the same result
    on every forced interval and every response. *)
Theorem C9_selectors_agree (time : option string) (data : Data) :
  grafico._calculo_intervalo_optimo time data
  = chart._get_optimal_interval time data.
Proof.
  unfold grafico._calculo_intervalo_optimo, chart._get_optimal_interval.
  destruct (truthy time); [reflexivity|].
  rewrite contar_puntos_eq.
  destruct (chart.count_points _ _ _) as [intervals|e]; cbn [bind]; [|reflexivity].
  rewrite buscar_intervalo_eq. reflexivity.
Qed.

(** ** Floats *)

Section RoundFacts.
Local Open Scope Z_scope.





End RoundFacts.

Section ExponentFacts.
Local Open Scope Z_scope.


Lemma scale_num_pos n e : 0 < n -> 0 < scale_num n e.
Proof.
  intros Hn. unfold scale_num.
  assert (0 < 2 ^ Z.max 0 (- e)) by (apply Z.pow_pos_nonneg; lia). nia.
Qed.




End ExponentFacts.

Section CompareFacts.
Local Open Scope Z_scope.









End CompareFacts.

Section QuotientFacts.
Local Open Scope Z_scope.



End QuotientFacts.

(** ** Claims about the annotation positioner *)



(** Off a degenerate range the positioner always returns an offset. *)
Lemma note_position_total (self : chart.Chart) (point_date : Timestamp) :
  posix (chart.start_date self) <> posix (chart.end_date self) ->
  exists pos, chart.__get_note_position_x self point_date = Return pos.
Proof.
  unfold posix, chart.__get_note_position_x, truediv. intros Hne.
  destruct (Z.eqb_spec (value (chart.end_date self) / 10 ^ 9
                        - value (chart.start_date self) / 10 ^ 9) 0) as [H0|_];
    [lia|].
  destruct (_ <? _)%Z; cbn [bind];
    destruct (float_ltb float_0_9 _); eauto;
    destruct (float_ltb _ float_0_1); eauto.
Qed.

(** ** Claims about the buy/sell overlay *)

Section Overlay.
Variable to_datetime : string -> string -> pyresult Timestamp.
Variable format_number : Q -> string.

(** A call either leaves the figure alone or appends one marker trace. *)
Lemma add_buy_sell_point_fig self label quantity price date :
  let self' :=
    fst (chart.add_buy_sell_point to_datetime format_number self label
           quantity price date) in
  (chart.fig self' = chart.fig self)
  \/ exists marker, is_marker marker
       /\ data (chart.fig self') = data (chart.fig self) ++ [marker].
Proof.
  unfold chart.add_buy_sell_point. cbv zeta.
  destruct (to_datetime date (chart.local self)) as [point_date|e];
    [|now left].
  destruct (_ || _); [now left|].
  right. eexists. split; cycle 1.
  - destruct (chart.__get_note_position_x _ _); reflexivity.
  - exact I.
Qed.


(** The figure of a chart always starts with the candlestick trace and
    the volume trace, followed by marker traces only. *)
Lemma reachable_shape (self : chart.Chart) :
  chart.reachable to_datetime format_number self ->
  exists candlestick volume markers,
    data (chart.fig self) = candlestick :: volume :: markers
    /\ is_candlestick candlestick /\ is_bar volume
    /\ Forall is_marker markers.
Proof.
  induction 1 as [self candles Hfig
                 |self label quantity price date Hreach IH
                 |self Hreach IH].
  - rewrite Hfig. unfold chart.__create_figure, append_trace. cbn.
    do 3 eexists. split; [reflexivity|]. repeat split. constructor.
  - destruct IH as (c & v & ms & Hdata & Hc & Hv & Hms).
    destruct (add_buy_sell_point_fig self label quantity price date)
      as [Hsame|(marker & Hm & Happ)]; cbv zeta in *.
    + rewrite Hsame. eauto 8.
    + rewrite Happ, Hdata. exists c, v, (ms ++ [marker]).
      split; [reflexivity|]. repeat split; auto.
      apply Forall_app. split; [exact Hms | now constructor].
  - destruct IH as (c & v & ms & Hdata & Hc & Hv & Hms).
    unfold chart.delete_buy_sell_points. rewrite Hdata. cbn.
    exists c, v, []. repeat split; auto.
Qed.

(** C10. Every chart built by [__create_figure] and changed by
    [add_buy_sell_point] and [delete_buy_sell_points] holds the candlestick
    trace, the volume trace, then marker traces only; and on every chart
    of that form [delete_buy_sell_points] (and [borrar_puntos_compra_venta]
    on the same figure) returns normally and leaves a chart whose traces
    are exactly the first two, unchanged, whose annotations are empty and
    whose other attributes are what they were. *)
Theorem C10_delete_keeps_base (self : chart.Chart) :
  (chart.reachable to_datetime format_number self ->
   exists candlestick volume markers,
     data (chart.fig self) = candlestick :: volume :: markers
     /\ is_candlestick candlestick /\ is_bar volume
     /\ Forall is_marker markers)
  /\ forall candlestick volume markers,
       data (chart.fig self) = candlestick :: volume :: markers ->
       let out := chart.delete_buy_sell_points self in
       snd out = Return tt
       /\ data (chart.fig (fst out)) = [candlestick; volume]
       /\ annotations (chart.fig (fst out)) = []
       /\ chart.local (fst out) = chart.local self
       /\ chart.file_path (fst out) = chart.file_path self
       /\ chart.pair (fst out) = chart.pair self
       /\ chart.start_date (fst out) = chart.start_date self
       /\ chart.end_date (fst out) = chart.end_date self
       /\ forall g : grafico.Grafico,
            grafico.fig g = chart.fig self ->
            let salida := grafico.borrar_puntos_compra_venta g in
            snd salida = Return tt
            /\ data (grafico.fig (fst salida)) = [candlestick; volume]
            /\ annotations (grafico.fig (fst salida)) = []
            /\ grafico.local (fst salida) = grafico.local g
            /\ grafico.ruta_archivo (fst salida) = grafico.ruta_archivo g
            /\ grafico.par (fst salida) = grafico.par g
            /\ grafico.fecha_inicial (fst salida) = grafico.fecha_inicial g
            /\ grafico.fecha_final (fst salida) = grafico.fecha_final g.
Proof.
  split; [apply reachable_shape|].
  intros c v ms Hdata. cbv zeta.
  unfold chart.delete_buy_sell_points. rewrite Hdata.
  cbn [list_getitem fst snd chart.set_fig chart.fig chart.local
       chart.file_path chart.pair chart.start_date chart.end_date data
       annotations].
  do 8 (split; [reflexivity|]).
  intros g Hg. unfold grafico.borrar_puntos_compra_venta. rewrite Hg, Hdata.
  cbn [list_getitem fst snd grafico.set_fig grafico.fig grafico.local
       grafico.ruta_archivo grafico.par grafico.fecha_inicial
       grafico.fecha_final data annotations].
  repeat split; reflexivity.
Qed.
End Overlay.

(** * The claims on sample inputs *)

(** ** The float model against the IEEE 754 specification *)

Example round_agrees_0_9 :
  SFdiv 53 1024 (spec_of_int 9) (spec_of_int 10)
  = to_spec_float (round_binary64 9 10).
Proof. vm_compute. reflexivity. Qed.

Example round_agrees_0_1 :
  SFdiv 53 1024 (spec_of_int 1) (spec_of_int 10)
  = to_spec_float (round_binary64 1 10).
Proof. vm_compute. reflexivity. Qed.

Example round_agrees_negative :
  SFdiv 53 1024 (spec_of_int (- 950)) (spec_of_int 1000)
  = to_spec_float (round_binary64 (- 950) 1000).
Proof. vm_compute. reflexivity. Qed.

Example round_agrees_day_in_range :
  SFdiv 53 1024 (spec_of_int 86400) (spec_of_int 9123456789)
  = to_spec_float (round_binary64 86400 9123456789).
Proof. vm_compute. reflexivity. Qed.

Example round_agrees_third :
  SFdiv 53 1024 (spec_of_int 1) (spec_of_int 3)
  = to_spec_float (round_binary64 1 3).
Proof. vm_compute. reflexivity. Qed.

Example compare_agrees_just_above :
  SFltb (SFdiv 53 1024 (spec_of_int 9) (spec_of_int 10))
        (SFdiv 53 1024 (spec_of_int 9000000001) (spec_of_int 10000000000))
  = float_ltb float_0_9 (round_binary64 9000000001 10000000000).
Proof. vm_compute. reflexivity. Qed.

(** Past the range of timestamps a quotient above 9/10 can round to the
    float [0.9] itself. *)
Example round_huge_range :
  round_binary64 (9 * 10 ^ 16 + 1) (10 ^ 17) = float_0_9.
Proof. vm_compute. reflexivity. Qed.

(** ** The interval selector *)

Example select_dense :
  chart._get_optimal_interval None dense_data = Return (Some "180").
Proof. vm_compute. reflexivity. Qed.

Example select_dense_empty_string :
  chart._get_optimal_interval (Some "") dense_data = Return (Some "180").
Proof. vm_compute. reflexivity. Qed.

Example select_sparse :
  chart._get_optimal_interval None sparse_data = Return (Some "180").
Proof. vm_compute. reflexivity. Qed.

Example select_tied :
  chart._get_optimal_interval None tied_data = Return (Some "300").
Proof. vm_compute. reflexivity. Qed.

Example select_empty :
  chart._get_optimal_interval None empty_data = Return None.
Proof. vm_compute. reflexivity. Qed.

Example select_no_bucket :
  chart._get_optimal_interval None {| result := [] |} = Raise IndexError.
Proof. vm_compute. reflexivity. Qed.

Example select_forced_unknown :
  chart._get_optimal_interval (Some "300") dense_data = Return (Some "300").
Proof. vm_compute. reflexivity. Qed.

Example fetch_forced_unknown :
  chart._get_ohlcv_data (sample_requests_get dense_data) "btceur" (Some "300")
    0 1000
  = Raise (KeyError "300").
Proof. vm_compute. reflexivity. Qed.

Ltac wf_sample :=
  unfold dict_wf; cbn; repeat constructor; cbn; intuition discriminate.

Ltac each_bucket H :=
  apply dict_getitem_In in H; cbn in H;
  repeat (destruct H as [H|H]; [injection H as <- <-|]); [..|contradiction].

Lemma C1_witness :
  exists l cs,
    chart._get_optimal_interval None dense_data = Return (Some l)
    /\ dict_getitem (result dense_data) l = Return cs
    /\ 500 < List.length cs
    /\ forall l' cs', dict_getitem (result dense_data) l' = Return cs' ->
                      500 < List.length cs' -> List.length cs <= List.length cs'.
Proof.
  apply (C1_first_above_target None dense_data).
  - wf_sample.
  - reflexivity.
  - exists "180", (bucket 501). split; [reflexivity|].
    apply Nat.ltb_lt. vm_compute. reflexivity.
Defined.

Lemma C2_witness :
  exists l cs,
    chart._get_optimal_interval None sparse_data = Return (Some l)
    /\ dict_getitem (result sparse_data) l = Return cs
    /\ forall l' cs', dict_getitem (result sparse_data) l' = Return cs' ->
                      List.length cs' <= List.length cs.
Proof.
  apply (C2_fallback_largest None sparse_data).
  - wf_sample.
  - reflexivity.
  - intros l cs H. each_bucket H; apply Nat.leb_le; vm_compute; reflexivity.
  - exists "60", (bucket 100). split; [reflexivity|].
    apply Nat.ltb_lt. vm_compute. reflexivity.
Defined.

Lemma C3_witness :
  chart._get_optimal_interval None empty_data = Return None
  /\ forall (requests_get : string -> list (string * Z) -> pyresult Response)
            (pair : string) (after before : Z) (response : Response),
      requests_get
        ("https://api.cryptowat.ch/markets/kraken/" ++ pair ++ "/ohlc")%string
        [("before", before); ("after", after)] = Return response ->
      raise_for_status response = Return tt ->
      json response = empty_data ->
      chart._get_ohlcv_data requests_get pair None after before
      = Raise (Exception "The intervals in the response are empty!").
Proof.
  apply (C3_all_empty_raises None empty_data).
  - wf_sample.
  - reflexivity.
  - discriminate.
  - intros l cs H. each_bucket H; reflexivity.
Defined.

Example fetch_empty :
  chart._get_ohlcv_data (sample_requests_get empty_data) "btceur" None 0 1000
  = Raise (Exception "The intervals in the response are empty!").
Proof. vm_compute. reflexivity. Qed.

Lemma C4_witness :
  chart._get_optimal_interval (Some "300") empty_data = Return (Some "300").
Proof.
  apply (C4_forced_interval "300" empty_data). discriminate.
Defined.

Lemma C8_witness :
  exists order : list (string * nat),
    Permutation order (counts (result tied_data))
    /\ StronglySorted (key_le snd) order
    /\ (forall c, filter (fun kv => snd kv =? c) order
                  = filter (fun kv => snd kv =? c) (counts (result tied_data)))
    /\ chart._get_optimal_interval None tied_data = walk order
    /\ forall l cs l' cs',
         chart._get_optimal_interval None tied_data = Return (Some l) ->
         dict_getitem (result tied_data) l = Return cs -> 500 < List.length cs ->
         dict_getitem (result tied_data) l' = Return cs' ->
         List.length cs' = List.length cs -> l' <> l ->
         appears_before l l' (dict_keys (result tied_data)).
Proof.
  apply (C8_stable_tie_break None tied_data).
  - wf_sample.
  - reflexivity.
Defined.

(** ** The annotation positioner *)

Example offset_near_start :
  chart.__get_note_position_x sample_chart (to_datetime_s 50) = Return 100%Z.
Proof. vm_compute. reflexivity. Qed.

Example offset_near_end :
  chart.__get_note_position_x sample_chart (to_datetime_s 950)
  = Return (- 100)%Z.
Proof. vm_compute. reflexivity. Qed.

Example offset_middle :
  chart.__get_note_position_x sample_chart (to_datetime_s 500) = Return 20%Z.
Proof. vm_compute. reflexivity. Qed.

Example offset_at_nine_tenths :
  chart.__get_note_position_x sample_chart (to_datetime_s 100) = Return 20%Z.
Proof. vm_compute. reflexivity. Qed.

Example offset_at_one_tenth :
  chart.__get_note_position_x sample_chart (to_datetime_s 900) = Return 20%Z.
Proof. vm_compute. reflexivity. Qed.

Example offset_before_range :
  chart.__get_note_position_x sample_chart (to_datetime_s (- 400))
  = Return 100%Z.
Proof. vm_compute. reflexivity. Qed.



(** ** The buy/sell overlay *)

Example marker_after_range :
  chart.add_buy_sell_point sample_to_datetime sample_format_number
    sample_chart "s" (2 # 10000) 40000 "2000"
  = (sample_chart, Return tt).
Proof. vm_compute. reflexivity. Qed.

Example marker_on_start :
  List.length
    (data (chart.fig
       (fst (chart.add_buy_sell_point sample_to_datetime sample_format_number
               sample_chart "b" (2 # 10000) 40000 "0")))) = 3
  /\ List.length
       (annotations (chart.fig
          (fst (chart.add_buy_sell_point sample_to_datetime
                  sample_format_number sample_chart "b" (2 # 10000) 40000
                  "0")))) = 1.
Proof. vm_compute. split; reflexivity. Qed.

Example marker_on_degenerate_range :
  snd (chart.add_buy_sell_point sample_to_datetime sample_format_number
         degenerate_chart "b" (2 # 10000) 40000 "1000")
  = Raise ZeroDivisionError
  /\ List.length
       (data (chart.fig
          (fst (chart.add_buy_sell_point sample_to_datetime
                  sample_format_number degenerate_chart "b" (2 # 10000) 40000
                  "1000")))) = 3.
Proof. vm_compute. split; reflexivity. Qed.


Lemma C10_witness :
  let self :=
    fst (chart.add_buy_sell_point sample_to_datetime sample_format_number
           sample_chart "b" (2 # 10000) 40000 "50") in
  let out := chart.delete_buy_sell_points self in
  chart.reachable sample_to_datetime sample_format_number self
  /\ List.length (data (chart.fig self)) = 3
  /\ List.length (annotations (chart.fig self)) = 1
  /\ snd out = Return tt
  /\ data (chart.fig (fst out)) = data (chart.fig sample_chart)
  /\ annotations (chart.fig (fst out)) = [].
Proof.
  cbv zeta. split.
  - apply chart.reach_add. apply (chart.reach_init _ _ _ (bucket 3)).
    reflexivity.
  - split; [vm_compute; reflexivity|]. split; [vm_compute; reflexivity|].
    match eval vm_compute in
          (data (chart.fig
             (fst (chart.add_buy_sell_point sample_to_datetime
                     sample_format_number sample_chart "b" (2 # 10000) 40000
                     "50")))) with
    | ?c :: ?v :: ?ms =>
        destruct (proj2 (C10_delete_keeps_base sample_to_datetime
                           sample_format_number
                           (fst (chart.add_buy_sell_point sample_to_datetime
                                   sample_format_number sample_chart "b"
                                   (2 # 10000) 40000 "50")))
                    c v ms)
          as (Hret & Hdata & Hann & _);
        [vm_compute; reflexivity|];
        split; [exact Hret|]; split; [|exact Hann];
        rewrite Hdata; vm_compute; reflexivity
    end.
Defined.

Example delete_after_two_markers :
  let c1 := fst (chart.add_buy_sell_point sample_to_datetime
                   sample_format_number sample_chart "b" (2 # 10000) 40000
                   "50") in
  let c2 := fst (chart.add_buy_sell_point sample_to_datetime
                   sample_format_number c1 "s" (2 # 10000) 40000 "1000") in
  List.length (data (chart.fig c2)) = 4
  /\ List.length (annotations (chart.fig c2)) = 2
  /\ chart.delete_buy_sell_points c2 = (sample_chart, Return tt).
Proof. vm_compute. repeat split; reflexivity. Qed.

Example delete_without_traces :
  snd (chart.delete_buy_sell_points
         (chart.set_fig sample_chart {| data := []; annotations := [] |}))
  = Raise IndexError.
Proof. vm_compute. reflexivity. Qed.

(** * Further properties *)

(** ** The interval selector and the data fetch *)

(** The three outcomes of a walk over an ascending sequence. *)
Lemma walk_cases (order : list (string * nat)) :
  StronglySorted (key_le snd) order ->
  (order = [] /\ walk order = Raise IndexError)
  \/ (order <> [] /\ (forall kv, In kv order -> snd kv = 0)
      /\ walk order = Return None)
  \/ (exists l c, In (l, c) order /\ 0 < c /\ walk order = Return (Some l)).
Proof.
  intros Hs. unfold walk.
  destruct (find (fun kv => 500 <? snd kv) order) as [[l c]|] eqn:Hfind.
  - right; right. apply find_some in Hfind. destruct Hfind as [Hin Hc].
    cbn [snd] in Hc. apply Nat.ltb_lt in Hc.
    exists l, c. repeat split; [exact Hin | lia].
  - destruct order as [|kv0 rest]; [now left|]. right.
    destruct (list_last_nonempty (kv0 :: rest)) as [[l c] Hlast];
      [discriminate|].
    rewrite Hlast. cbn [bind snd fst].
    pose proof (list_last_sorted_greatest snd _ _ Hs Hlast) as Hmax.
    cbn [snd] in Hmax.
    destruct (Nat.eqb_spec c 0) as [->|Hc].
    + left. split; [discriminate|]. split; [|reflexivity].
      intros kv Hin. specialize (Hmax kv Hin). lia.
    + right. exists l, c. split; [now apply list_last_In|].
      split; [lia | reflexivity].
Qed.

(** The outcomes of the selector on a response, without a forced
    interval. *)
Lemma selector_cases (time : option string) (data : Data) :
  dict_wf (result data) -> truthy time = false ->
  (result data = []
   /\ chart._get_optimal_interval time data = Raise IndexError)
  \/ (result data <> []
      /\ (forall l cs, dict_getitem (result data) l = Return cs -> cs = [])
      /\ chart._get_optimal_interval time data = Return None)
  \/ (exists l cs,
        dict_getitem (result data) l = Return cs /\ cs <> []
        /\ chart._get_optimal_interval time data = Return (Some l)).
Proof.
  intros Hwf Hfalsy. rewrite optimal_interval_walk by assumption.
  destruct (walk_cases _ (sorted_sorted snd (counts (result data))))
    as [[Hnil Hw]|[(Hne & Hzero & Hw)|(l & c & Hin & Hc & Hw)]].
  - left. split; [|exact Hw].
    destruct (result data) as [|[l cs] rest] eqn:Eres; [reflexivity|].
    exfalso. rewrite <- Eres in *.
    apply (sorted_counts_nonempty (result data) l cs Hwf); [|exact Hnil].
    rewrite Eres. cbn [dict_getitem]. now rewrite String.eqb_refl.
  - right; left. split; [|split; [|exact Hw]].
    + intros Hres. apply Hne. now rewrite Hres.
    + intros l cs Hget.
      assert (Hin : In (l, List.length cs) (sorted snd (counts (result data))))
        by (apply In_sorted_counts; eauto).
      apply Hzero in Hin. cbn [snd] in Hin. now apply length_zero_iff_nil.
  - right; right. apply In_sorted_counts in Hin; [|exact Hwf].
    destruct Hin as (cs & Hget & <-). exists l, cs.
    split; [exact Hget|]. split; [|exact Hw].
    intros ->. cbn in Hc. lia.
Qed.

(** X4. Without a forced interval the selector has three outcomes:
    [IndexError] exactly on a response without buckets, [None] exactly on
    buckets that are all empty, and otherwise a label of the response whose
    bucket holds at least one point; it raises nothing else. *)
Theorem X4_selector_outcomes (time : option string) (data : Data) :
  dict_wf (result data) -> truthy time = false ->
  (result data = []
   /\ chart._get_optimal_interval time data = Raise IndexError)
  \/ (result data <> []
      /\ (forall l cs, dict_getitem (result data) l = Return cs -> cs = [])
      /\ chart._get_optimal_interval time data = Return None)
  \/ (exists l cs,
        dict_getitem (result data) l = Return cs /\ cs <> []
        /\ chart._get_optimal_interval time data = Return (Some l)).
Proof. apply selector_cases. Qed.

(** The two steps of [_get_ohlcv_data] after a good response. *)
Lemma fetch_after_response requests_get pair interval after before response :
  requests_get (ohlc_url pair) [("before", before); ("after", after)]
  = Return response ->
  raise_for_status response = Return tt ->
  chart._get_ohlcv_data requests_get pair interval after before
  = (optimal_interval <- chart._get_optimal_interval interval (json response) ;;
     match optimal_interval with
     | None => Raise (Exception "The intervals in the response are empty!")
     | Some label => dict_getitem (result (json response)) label
     end).
Proof.
  intros Hreq Hstatus. unfold chart._get_ohlcv_data, ohlc_url in *.
  cbn [String.append] in Hreq |- *. rewrite Hreq. cbn [bind].
  rewrite Hstatus. cbn [bind].
  destruct (chart._get_optimal_interval interval (json response)) as [[l|]|e];
    cbn [bind]; try reflexivity.
  destruct (dict_getitem _ l); reflexivity.
Qed.

(** X1. With a forced interval the fetch is a plain lookup of that label
    in the response: a label the response lacks raises [KeyError], and an
    empty bucket is returned as it is, without the emptiness exception. *)
Theorem X1_forced_fetch_is_lookup
        (requests_get : string -> list (string * Z) -> pyresult Response)
        (pair forced : string) (after before : Z) (response : Response) :
  forced <> ""%string ->
  requests_get (ohlc_url pair) [("before", before); ("after", after)]
  = Return response ->
  raise_for_status response = Return tt ->
  chart._get_ohlcv_data requests_get pair (Some forced) after before
  = dict_getitem (result (json response)) forced
  /\ (~ In forced (dict_keys (result (json response))) ->
      chart._get_ohlcv_data requests_get pair (Some forced) after before
      = Raise (KeyError forced))
  /\ (dict_wf (result (json response)) ->
      In (forced, []) (result (json response)) ->
      chart._get_ohlcv_data requests_get pair (Some forced) after before
      = Return []).
Proof.
  intros Hne Hreq Hstatus.
  rewrite (fetch_after_response _ _ _ _ _ _ Hreq Hstatus).
  assert (Hsel : chart._get_optimal_interval (Some forced) (json response)
                 = Return (Some forced)).
  { unfold chart._get_optimal_interval.
    destruct forced; [congruence | reflexivity]. }
  rewrite Hsel. cbn [bind]. split; [reflexivity|]. split.
  - apply dict_getitem_fresh.
  - intros Hwf Hin. now apply In_dict_getitem.
Qed.

(** X2. A request that raises, or a response whose status is a client or
    server error, ends the fetch with that exception, whatever the body
    and the interval are. *)
Theorem X2_request_errors
        (requests_get : string -> list (string * Z) -> pyresult Response)
        (pair : string) (interval : option string) (after before : Z) :
  (forall e,
      requests_get (ohlc_url pair) [("before", before); ("after", after)]
      = Raise e ->
      chart._get_ohlcv_data requests_get pair interval after before = Raise e)
  /\ (forall response,
         requests_get (ohlc_url pair) [("before", before); ("after", after)]
         = Return response ->
         (400 <= status_code response < 600)%Z ->
         chart._get_ohlcv_data requests_get pair interval after before
         = Raise (HTTPError (status_code response))).
Proof.
  unfold chart._get_ohlcv_data, ohlc_url. cbn [String.append]. split.
  - intros e ->. reflexivity.
  - intros response -> [Hlo Hhi]. cbn [bind]. unfold raise_for_status.
    apply Z.leb_le in Hlo. apply Z.ltb_lt in Hhi. rewrite Hlo, Hhi.
    reflexivity.
Qed.

(** X3. Without a forced interval, a good response with at least one
    non-empty bucket always yields candles: the returned list is a bucket
    of the response, the one the selector chose, and it is not empty. *)
Theorem X3_fetch_returns_chosen_bucket
        (requests_get : string -> list (string * Z) -> pyresult Response)
        (pair : string) (interval : option string) (after before : Z)
        (response : Response) :
  truthy interval = false ->
  requests_get (ohlc_url pair) [("before", before); ("after", after)]
  = Return response ->
  raise_for_status response = Return tt ->
  dict_wf (result (json response)) ->
  (exists l cs, dict_getitem (result (json response)) l = Return cs
                /\ cs <> []) ->
  exists label candles,
    chart._get_optimal_interval interval (json response) = Return (Some label)
    /\ dict_getitem (result (json response)) label = Return candles
    /\ candles <> []
    /\ chart._get_ohlcv_data requests_get pair interval after before
       = Return candles.
Proof.
  intros Hfalsy Hreq Hstatus Hwf (l1 & cs1 & Hget1 & Hne1).
  rewrite (fetch_after_response _ _ _ _ _ _ Hreq Hstatus).
  destruct (selector_cases interval (json response) Hwf Hfalsy)
    as [[Hnil _]|[(_ & Hzero & _)|(l & cs & Hget & Hne & Hsel)]].
  - rewrite Hnil in Hget1. discriminate.
  - apply Hzero in Hget1. contradiction.
  - exists l, cs. rewrite Hsel. cbn [bind]. auto.
Qed.

Section OrderFacts.
Context {A : Type}.

Lemma filter_perm (p : A -> bool) (l1 l2 : list A) :
  Permutation l1 l2 -> Permutation (filter p l1) (filter p l2).
Proof.
  induction 1 as [|x l1 l2 Hp IH|x y l|l1 l2 l3 H12 IH12 H23 IH23];
    cbn [filter].
  - constructor.
  - destruct (p x); [now constructor | exact IH].
  - destruct (p x), (p y); try reflexivity. apply perm_swap.
  - now transitivity (filter p l2).
Qed.

Lemma filter_nil_all_false (q : A -> bool) (l : list A) :
  filter q l = [] -> Forall (fun y => q y = false) l.
Proof.
  induction l as [|h l IH]; cbn [filter]; [constructor|].
  destruct (q h) eqn:E; [discriminate|]. intros H. constructor; auto.
Qed.

(** With pairwise distinct keys at most one element has a given key. *)
Lemma filter_key_at_most_one (key : A -> nat) (c : nat) (l : list A) :
  NoDup (map key l) ->
  filter (fun a => key a =? c) l = []
  \/ exists x, filter (fun a => key a =? c) l = [x].
Proof.
  induction l as [|h l IH]; cbn [map filter]; intros Hnd; [now left|].
  inversion Hnd as [|? ? Hfresh Hnd']; subst.
  destruct (Nat.eqb_spec (key h) c) as [Hk|Hk]; [|now apply IH].
  right. exists h. f_equal.
  destruct (filter (fun a => key a =? c) l) as [|y t] eqn:E; [reflexivity|].
  exfalso. apply Hfresh.
  assert (Hy : In y (filter (fun a => key a =? c) l))
    by (rewrite E; now left).
  apply filter_In in Hy. destruct Hy as [Hy Hc]. apply Nat.eqb_eq in Hc.
  rewrite Hk, <- Hc. now apply in_map.
Qed.

Lemma list_last_filter (q : A -> bool) (l : list A) x :
  list_last l = Return x -> q x = true ->
  list_last (filter q l) = Return x.
Proof.
  intros Hlast Hq. induction l as [|h l IH]; [discriminate|].
  destruct l as [|h' t].
  - cbn in Hlast. injection Hlast as ->. cbn [filter]. now rewrite Hq.
  - change (list_last (h :: h' :: t)) with (list_last (h' :: t)) in Hlast.
    specialize (IH Hlast).
    change (filter q (h :: h' :: t))
      with (if q h then h :: filter q (h' :: t) else filter q (h' :: t)).
    destruct (q h); [|exact IH].
    destruct (filter q (h' :: t)) as [|y r]; [discriminate | exact IH].
Qed.

Lemma filter_last_split (q : A -> bool) (l : list A) x :
  list_last (filter q l) = Return x ->
  exists a b, l = a ++ x :: b /\ Forall (fun y => q y = false) b.
Proof.
  induction l as [|h l IH]; [discriminate|]. cbn [filter].
  destruct (q h) eqn:Eh.
  - destruct (filter q l) as [|y r] eqn:Ef.
    + intros [= <-]. exists [], l. split; [reflexivity|].
      now apply filter_nil_all_false.
    + intros Hlast.
      change (list_last (h :: y :: r)) with (list_last (y :: r)) in Hlast.
      destruct (IH Hlast) as (a & b & -> & Hb).
      exists (h :: a), b. split; [reflexivity | exact Hb].
  - intros Hlast. destruct (IH Hlast) as (a & b & -> & Hb).
    exists (h :: a), b. split; [reflexivity | exact Hb].
Qed.
End OrderFacts.

(** X5. When no two buckets hold the same number of points, the choice of
    the selector does not depend on the order of the buckets in the
    response. *)
Theorem X5_order_independent (time : option string) (d1 d2 : Data) :
  dict_wf (result d1) ->
  Permutation (result d1) (result d2) ->
  NoDup (map snd (counts (result d1))) ->
  chart._get_optimal_interval time d1 = chart._get_optimal_interval time d2.
Proof.
  intros Hwf Hperm Hdistinct.
  destruct (truthy time) eqn:Htime.
  - unfold chart._get_optimal_interval. now rewrite Htime.
  - rewrite !optimal_interval_walk by (eauto using dict_wf_perm).
    f_equal. apply (stable_sort_unique snd); try apply sorted_sorted.
    intros c. rewrite !sorted_stable.
    assert (Hp : Permutation (counts (result d1)) (counts (result d2)))
      by (now apply Permutation_map).
    pose proof (filter_perm (fun kv => snd kv =? c) _ _ Hp) as Hf.
    destruct (filter_key_at_most_one snd c _ Hdistinct) as [E|[x E]];
      rewrite E in *.
    + symmetry. now apply Permutation_nil.
    + symmetry. now apply Permutation_length_1_inv.
Qed.

(** A lookup in two responses with the same sizes ends alike. *)
Lemma count_points_same_counts (res1 res2 : pydict (list Candle))
      (keys : list string) (intervals : pydict nat) :
  counts res1 = counts res2 ->
  chart.count_points keys res1 intervals
  = chart.count_points keys res2 intervals.
Proof.
  intros Hc.
  assert (Hget : forall k,
             match dict_getitem res1 k, dict_getitem res2 k with
             | Return a, Return b => List.length a = List.length b
             | Raise e1, Raise e2 => e1 = e2
             | _, _ => False
             end).
  { intros k. revert res2 Hc.
    induction res1 as [|[k1 v1] r1 IH]; intros [|[k2 v2] r2] Hc;
      try discriminate; [reflexivity|].
    cbn in Hc. injection Hc as -> Hlen Hrest. cbn [dict_getitem].
    destruct (String.eqb k2 k); [exact Hlen | now apply IH]. }
  revert intervals. induction keys as [|k keys IH]; intros intervals;
    [reflexivity|].
  cbn [chart.count_points]. specialize (Hget k).
  destruct (dict_getitem res1 k) as [a|e1], (dict_getitem res2 k) as [b|e2];
    cbn [bind]; try contradiction.
  - rewrite Hget. apply IH.
  - now rewrite Hget.
Qed.

(** X6. The selector reads the sizes of the buckets only: two responses
    with the same labels and the same number of points under each label
    give the same result, whatever the candles are. *)
Theorem X6_selector_reads_sizes_only (time : option string) (d1 d2 : Data) :
  counts (result d1) = counts (result d2) ->
  chart._get_optimal_interval time d1 = chart._get_optimal_interval time d2.
Proof.
  intros Hc. unfold chart._get_optimal_interval.
  destruct (truthy time); [reflexivity|].
  assert (Hk : dict_keys (result d1) = dict_keys (result d2))
    by (rewrite <- !dict_keys_counts; now rewrite Hc).
  rewrite Hk, (count_points_same_counts _ _ _ _ Hc). reflexivity.
Qed.

(** X7. When no bucket exceeds 500 points, the label returned is, among
    the labels tied at the largest size, the one that comes last in the
    response: every other label of that size comes before it. *)
Theorem X7_fallback_tie_is_last (time : option string) (data : Data)
        (l l' : string) (cs cs' : list Candle) :
  dict_wf (result data) -> truthy time = false ->
  (forall k bs, dict_getitem (result data) k = Return bs ->
                List.length bs <= 500) ->
  chart._get_optimal_interval time data = Return (Some l) ->
  dict_getitem (result data) l = Return cs ->
  dict_getitem (result data) l' = Return cs' ->
  List.length cs' = List.length cs -> l' <> l ->
  appears_before l' l (dict_keys (result data)).
Proof.
  intros Hwf Hfalsy Hsmall Hret Hget Hget' Hlen Hneq.
  rewrite optimal_interval_walk in Hret by assumption. unfold walk in Hret.
  set (order := sorted snd (counts (result data))) in *.
  rewrite find_all_false in Hret.
  2:{ intros [k c] Hin. apply In_sorted_counts in Hin; [|exact Hwf].
      destruct Hin as (bs & Hk & <-). cbn [snd]. apply Nat.ltb_ge. eauto. }
  destruct (list_last order) as [[l0 c0]|e] eqn:Hlast; [|discriminate].
  cbn [bind snd fst] in Hret.
  destruct (c0 =? 0); [discriminate|]. injection Hret as ->.
  assert (Hc0 : c0 = List.length cs).
  { apply list_last_In in Hlast. apply In_sorted_counts in Hlast; [|exact Hwf].
    destruct Hlast as (bs & Hk & <-). congruence. }
  subst c0.
  set (q := fun kv : string * nat => snd kv =? List.length cs).
  pose proof (list_last_filter q order _ Hlast (Nat.eqb_refl _)) as Hq.
  unfold q, order in Hq. rewrite sorted_stable in Hq.
  destruct (filter_last_split _ _ _ Hq) as (a & b & Hsplit & Hb).
  assert (Hin' : In (l', List.length cs) (counts (result data))).
  { rewrite <- Hlen. apply dict_getitem_In. now apply counts_getitem. }
  rewrite Hsplit in Hin'. apply in_app_or in Hin'.
  destruct Hin' as [Hin'|[Heq|Hin']].
  - apply in_split in Hin'. destruct Hin' as (a1 & a2 & ->).
    exists (map fst a1), (map fst a2), (map fst b).
    rewrite <- dict_keys_counts, Hsplit. unfold dict_keys.
    rewrite <- app_assoc. cbn [app]. rewrite !map_app. cbn [map fst].
    rewrite map_app. reflexivity.
  - congruence.
  - rewrite Forall_forall in Hb. apply Hb in Hin'. cbn [snd] in Hin'.
    rewrite Nat.eqb_refl in Hin'. discriminate.
Qed.

(** ** The annotation positioner *)





(** ** The buy/sell overlay *)

Lemma set_fig_id (self : chart.Chart) :
  chart.set_fig self (chart.fig self) = self.
Proof. destruct self. reflexivity. Qed.

(** The positioner raises exactly on a range of zero seconds. *)
Lemma note_position_zero_range (self : chart.Chart) (point_date : Timestamp) :
  posix (chart.start_date self) = posix (chart.end_date self) ->
  chart.__get_note_position_x self point_date = Raise ZeroDivisionError.
Proof.
  unfold posix, chart.__get_note_position_x, truediv. intros ->.
  rewrite Z.sub_diag. reflexivity.
Qed.

Section OverlayFrame.
Variable to_datetime : string -> string -> pyresult Timestamp.
Variable format_number : Q -> string.

(** The three ways a call can end: the chart untouched; a marker trace
    added and the division by zero raised; a marker trace and its
    annotation added. *)
Lemma add_buy_sell_point_cases (self : chart.Chart) (label : string)
      (quantity price : Q) (date : string) :
  let out :=
    chart.add_buy_sell_point to_datetime format_number self label quantity
      price date in
  fst out = self
  \/ (exists marker,
         is_marker marker
         /\ posix (chart.start_date self) = posix (chart.end_date self)
         /\ snd out = Raise ZeroDivisionError
         /\ fst out
            = chart.set_fig self
                {| data := data (chart.fig self) ++ [marker];
                   annotations := annotations (chart.fig self) |})
  \/ (exists marker note,
         is_marker marker
         /\ posix (chart.start_date self) <> posix (chart.end_date self)
         /\ snd out = Return tt
         /\ fst out
            = chart.set_fig self
                {| data := data (chart.fig self) ++ [marker];
                   annotations := annotations (chart.fig self) ++ [note] |}).
Proof.
  cbv zeta. unfold chart.add_buy_sell_point.
  destruct (to_datetime date (chart.local self)) as [point_date|e];
    [|now left].
  destruct (_ || _); [now left|]. right.
  destruct (Z.eq_dec (posix (chart.start_date self))
                     (posix (chart.end_date self))) as [Heq|Hne].
  - left. eexists. rewrite note_position_zero_range by exact Heq.
    refine (conj _ (conj Heq (conj eq_refl eq_refl))). exact I.
  - right.
    match goal with
    | |- context [chart.__get_note_position_x ?c ?p] =>
        destruct (note_position_total c p Hne) as [pos ->]
    end.
    do 2 eexists.
    refine (conj _ (conj Hne (conj eq_refl eq_refl))). exact I.
Qed.

(** X10. A marker whose date lies in the range, ends included, always adds
    one trace at its date and price, green for the labels [b] and [B] and
    red for every other label.  On a range of zero seconds the call then
    raises [ZeroDivisionError] and leaves the trace without an annotation;
    otherwise it adds one annotation at the same point, at the offset the
    positioner returns. *)
Theorem X10_marker_in_range (self : chart.Chart) (label : string)
        (quantity price : Q) (date : string) (point_date : Timestamp) :
  to_datetime date (chart.local self) = Return point_date ->
  (value (chart.start_date self) <= value point_date
   <= value (chart.end_date self))%Z ->
  let out :=
    chart.add_buy_sell_point to_datetime format_number self label quantity
      price date in
  data (chart.fig (fst out))
  = data (chart.fig self)
    ++ [Scatter [point_date] [price]
          (if String.eqb label "b" || String.eqb label "B"
           then "#bbdc86" else "#e70039")]
  /\ (posix (chart.start_date self) = posix (chart.end_date self) ->
      snd out = Raise ZeroDivisionError
      /\ annotations (chart.fig (fst out)) = annotations (chart.fig self))
  /\ (posix (chart.start_date self) <> posix (chart.end_date self) ->
      exists pos text,
        chart.__get_note_position_x self point_date = Return pos
        /\ snd out = Return tt
        /\ annotations (chart.fig (fst out))
           = annotations (chart.fig self)
             ++ [{| ann_x := point_date; ann_y := price; ann_text := text;
                    ann_ax := pos |}]).
Proof.
  intros Hparse [Hlo Hhi]. cbv zeta. unfold chart.add_buy_sell_point.
  rewrite Hparse. unfold ts_ltb, ts_gtb.
  destruct (Z.ltb_spec (value point_date) (value (chart.start_date self)));
    [lia|].
  destruct (Z.ltb_spec (value (chart.end_date self)) (value point_date));
    [lia|].
  cbn [orb].
  match goal with
  | |- context [chart.__get_note_position_x ?c point_date] =>
      change (chart.__get_note_position_x c point_date)
        with (chart.__get_note_position_x self point_date)
  end.
  split; [|split].
  - destruct (chart.__get_note_position_x self point_date); reflexivity.
  - intros Heq. rewrite note_position_zero_range by exact Heq.
    split; reflexivity.
  - intros Hne.
    destruct (note_position_total self point_date Hne) as [pos Hpos].
    rewrite Hpos. do 2 eexists. split; [reflexivity|]. split; reflexivity.
Qed.

(** X11. Whatever its arguments and its outcome, a call keeps the pair,
    the dates, the time zone and the file path of the chart, keeps every
    trace and annotation the figure held, in place, and adds at most one
    marker trace and at most one annotation, never an annotation without
    its trace. *)
Theorem X11_add_frame (self : chart.Chart) (label : string)
        (quantity price : Q) (date : string) :
  let self' :=
    fst (chart.add_buy_sell_point to_datetime format_number self label
           quantity price date) in
  chart.local self' = chart.local self
  /\ chart.file_path self' = chart.file_path self
  /\ chart.pair self' = chart.pair self
  /\ chart.start_date self' = chart.start_date self
  /\ chart.end_date self' = chart.end_date self
  /\ exists traces notes,
       data (chart.fig self') = data (chart.fig self) ++ traces
       /\ annotations (chart.fig self') = annotations (chart.fig self) ++ notes
       /\ Forall is_marker traces
       /\ List.length notes <= List.length traces <= 1.
Proof.
  cbv zeta.
  destruct (add_buy_sell_point_cases self label quantity price date)
    as [H|[(m & Hm & _ & _ & H)|(m & note & Hm & _ & _ & H)]];
    cbv zeta in H; rewrite H; cbn [chart.set_fig chart.local chart.file_path
      chart.pair chart.start_date chart.end_date chart.fig data annotations];
    (do 5 (split; [reflexivity|])).
  - exists [], []. rewrite !app_nil_r. cbn. repeat split; auto.
  - exists [m], []. rewrite app_nil_r. cbn. repeat split; auto.
  - exists [m], [note]. cbn. repeat split; auto.
Qed.
End OverlayFrame.

Section OverlaySequences.
Variable to_datetime : string -> string -> pyresult Timestamp.
Variable format_number : Q -> string.

(** X12. On every chart built by [__create_figure] and changed by the two
    public methods, the annotations never outnumber the marker traces; on
    a range longer than zero seconds there is exactly one annotation per
    marker trace, and on a range of zero seconds there is never any
    annotation. *)
Theorem X12_annotations_follow_markers (self : chart.Chart) :
  chart.reachable to_datetime format_number self ->
  List.length (annotations (chart.fig self)) + 2
  <= List.length (data (chart.fig self))
  /\ (posix (chart.start_date self) <> posix (chart.end_date self) ->
      List.length (annotations (chart.fig self)) + 2
      = List.length (data (chart.fig self)))
  /\ (posix (chart.start_date self) = posix (chart.end_date self) ->
      annotations (chart.fig self) = []).
Proof.
  induction 1 as [self candles Hfig
                 |self label quantity price date Hreach IH
                 |self Hreach IH].
  - rewrite Hfig. cbn. repeat split; auto.
  - destruct IH as (Hle & Hne & Heq).
    destruct (add_buy_sell_point_cases to_datetime format_number self label
                quantity price date)
      as [H|[(m & _ & Hz & _ & H)|(m & note & _ & Hnz & _ & H)]];
      cbv zeta in H; rewrite H;
      cbn [chart.set_fig chart.start_date chart.end_date chart.fig data
             annotations];
      rewrite ?length_app; cbn [List.length].
    + auto.
    + split; [lia|]. split; [intros Hc; contradiction | auto].
    + split; [lia|]. split; [intros _; specialize (Hne Hnz); lia|].
      intros Hc. contradiction.
  - destruct IH as (Hle & Hne & Heq).
    unfold chart.delete_buy_sell_points.
    destruct (data (chart.fig self)) as [|d0 [|d1 rest]];
      cbn in Hle |- *; try lia.
    repeat split; auto.
Qed.

(** A sequence of calls only appends to the figure. *)
Lemma add_all_appends (calls : list marker_call) (self : chart.Chart) :
  exists traces notes,
    add_all to_datetime format_number self calls
    = chart.set_fig self
        {| data := data (chart.fig self) ++ traces;
           annotations := annotations (chart.fig self) ++ notes |}.
Proof.
  revert self. induction calls as [|[[[label quantity] price] date] calls IH];
    intros self.
  - exists [], []. cbn [add_all fold_left]. rewrite !app_nil_r.
    destruct self as [? ? ? ? ? [? ?]]. reflexivity.
  - cbn [add_all fold_left].
    change (fold_left _ calls ?c) with (add_all to_datetime format_number c calls).
    destruct (add_buy_sell_point_cases to_datetime format_number self label
                quantity price date)
      as [H|[(m & _ & _ & _ & H)|(m & note & _ & _ & _ & H)]];
      cbv zeta in H; rewrite H.
    + apply IH.
    + destruct (IH (chart.set_fig self
                      {| data := data (chart.fig self) ++ [m];
                         annotations := annotations (chart.fig self) |}))
        as (ts & ns & ->).
      exists (m :: ts), ns. cbn. rewrite <- app_assoc. reflexivity.
    + destruct (IH (chart.set_fig self
                      {| data := data (chart.fig self) ++ [m];
                         annotations := annotations (chart.fig self) ++ [note] |}))
        as (ts & ns & ->).
      exists (m :: ts), (note :: ns). cbn. rewrite <- !app_assoc. reflexivity.
Qed.

(** X13. On a chart that holds its two base traces and no annotation,
    such as a new one, any sequence of [add_buy_sell_point] calls followed
    by [delete_buy_sell_points] gives back the very same chart, and the
    deletion raises nothing. *)
Theorem X13_delete_undoes_adds (self : chart.Chart)
        (candlestick volume : Trace) (calls : list marker_call) :
  data (chart.fig self) = [candlestick; volume] ->
  annotations (chart.fig self) = [] ->
  chart.delete_buy_sell_points
    (add_all to_datetime format_number self calls)
  = (self, Return tt).
Proof.
  intros Hdata Hann.
  destruct (add_all_appends calls self) as (ts & ns & ->).
  unfold chart.delete_buy_sell_points. rewrite Hdata. cbn.
  f_equal. destruct self as [? ? ? ? ? [d a]]. cbn in *. now subst.
Qed.
End OverlaySequences.

(** X14. Deleting twice is deleting once: the second call returns the
    chart and the outcome of the first one, be it a success or the
    [IndexError] of a figure with fewer than two traces. *)
Theorem X14_delete_idempotent (self : chart.Chart) :
  chart.delete_buy_sell_points (fst (chart.delete_buy_sell_points self))
  = chart.delete_buy_sell_points self.
Proof.
  unfold chart.delete_buy_sell_points.
  destruct (data (chart.fig self)) as [|d0 [|d1 rest]] eqn:E; cbn;
    rewrite ?E; reflexivity.
Qed.

(** X15. On a figure with fewer than two traces the deletion raises
    [IndexError] and changes nothing, the annotations included. *)
Theorem X15_delete_short_figure (self : chart.Chart) :
  List.length (data (chart.fig self)) < 2 ->
  chart.delete_buy_sell_points self = (self, Raise IndexError).
Proof.
  unfold chart.delete_buy_sell_points. intros Hlen.
  destruct (data (chart.fig self)) as [|d0 [|d1 rest]]; cbn in *;
    try reflexivity; lia.
Qed.

(** X16. The dates of a chart are not compared with each other: on a
    chart whose start is after its end no instant lies in the range, and
    every marker whose date parses to an instant is dropped without an
    error and without a change.  (The dates of the chart are instants as
    well: the property says nothing of [NaT].) *)
Theorem X16_inverted_range_drops_all
        (to_datetime : string -> string -> pyresult Timestamp)
        (format_number : Q -> string) (self : chart.Chart) (label : string)
        (quantity price : Q) (date : string) (point_date : Timestamp) :
  is_instant (chart.start_date self) ->
  is_instant (chart.end_date self) ->
  (value (chart.end_date self) < value (chart.start_date self))%Z ->
  to_datetime date (chart.local self) = Return point_date ->
  is_instant point_date ->
  chart.add_buy_sell_point to_datetime format_number self label quantity
    price date
  = (self, Return tt).
Proof.
  intros _ _ Hinv Hparse _. unfold chart.add_buy_sell_point. rewrite Hparse.
  unfold ts_ltb, ts_gtb.
  destruct (Z.ltb_spec (value point_date) (value (chart.start_date self)));
    [reflexivity|].
  destruct (Z.ltb_spec (value (chart.end_date self)) (value point_date));
    [reflexivity | lia].
Qed.

(** ** The two modules *)

Lemma selectors_equal (tiempo : option string) (datos : Data) :
  grafico._calculo_intervalo_optimo tiempo datos
  = chart._get_optimal_interval tiempo datos.
Proof.
  unfold grafico._calculo_intervalo_optimo, chart._get_optimal_interval.
  destruct (truthy tiempo); [reflexivity|].
  rewrite contar_puntos_eq.
  destruct (chart.count_points _ _ _) as [intervals|e]; cbn [bind];
    [|reflexivity].
  rewrite buscar_intervalo_eq. reflexivity.
Qed.

(** X17. The fetches of [grafico.py] and [chart.py] end alike on every
    request, except that on a good response whose buckets are all empty
    each one raises its own message, in its own language. *)
Theorem X17_fetches_agree
        (requests_get : string -> list (string * Z) -> pyresult Response)
        (par : string) (intervalo : option string) (despues antes : Z) :
  grafico._obtener_datos_ohlcv requests_get par intervalo despues antes
  = chart._get_ohlcv_data requests_get par intervalo despues antes
  \/ (exists respuesta,
         requests_get (ohlc_url par) [("before", antes); ("after", despues)]
         = Return respuesta
         /\ raise_for_status respuesta = Return tt
         /\ chart._get_optimal_interval intervalo (json respuesta)
            = Return None
         /\ chart._get_ohlcv_data requests_get par intervalo despues antes
            = Raise (Exception "The intervals in the response are empty!")
         /\ grafico._obtener_datos_ohlcv requests_get par intervalo despues
              antes
            = Raise (Exception "Los intervalos en la respuesta están vacíos!")).
Proof.
  unfold grafico._obtener_datos_ohlcv, chart._get_ohlcv_data, ohlc_url.
  cbn [String.append].
  destruct (requests_get _ _) as [respuesta|e] eqn:Hreq; cbn [bind];
    [|now left].
  destruct (raise_for_status respuesta) as [[]|e] eqn:Hstatus; cbn [bind];
    [|now left].
  rewrite selectors_equal.
  destruct (chart._get_optimal_interval intervalo (json respuesta))
    as [[l|]|e] eqn:Hsel; cbn [bind]; try (now left).
  right. exists respuesta. auto.
Qed.

(** X18. On a [Grafico] and the [Chart] with the same attributes, with
    labels that are buy labels together ([c] or [C] there, [b] or [B]
    here), the two methods that add a marker end alike: the same outcome,
    the same traces, and annotations at the same points with the same
    offsets; only the text of the annotation differs. *)
Theorem X18_adds_agree
        (to_datetime : string -> string -> pyresult Timestamp)
        (format_number : Q -> string) (g : grafico.Grafico)
        (etiqueta label : string) (cantidad precio : Q) (fecha : string) :
  String.eqb etiqueta "c" || String.eqb etiqueta "C"
  = String.eqb label "b" || String.eqb label "B" ->
  let salida :=
    grafico.añadir_punto_compra_venta to_datetime format_number g etiqueta
      cantidad precio fecha in
  let out :=
    chart.add_buy_sell_point to_datetime format_number (to_chart g) label
      cantidad precio fecha in
  snd salida = snd out
  /\ data (grafico.fig (fst salida)) = data (chart.fig (fst out))
  /\ map ann_position (annotations (grafico.fig (fst salida)))
     = map ann_position (annotations (chart.fig (fst out)))
  /\ chart.set_fig (to_chart (fst salida)) (chart.fig (fst out)) = fst out.
Proof.
  intros Hlabel. cbv zeta.
  unfold grafico.añadir_punto_compra_venta, chart.add_buy_sell_point.
  rewrite Hlabel. destruct g as [loc ruta par ini fin f]. cbn [to_chart
    grafico.local grafico.par grafico.fecha_inicial grafico.fecha_final
    grafico.fig chart.local chart.pair chart.start_date chart.end_date
    chart.fig].
  destruct (to_datetime fecha loc) as [fecha_punto|e]; [|now cbn].
  destruct (ts_ltb fecha_punto ini || ts_gtb fecha_punto fin); [now cbn|].
  unfold grafico.__calculo_posicion_nota, chart.__get_note_position_x.
  cbn [grafico.set_fig grafico.fecha_inicial grafico.fecha_final
       chart.set_fig chart.start_date chart.end_date].
  destruct (truediv _ _) as [porcentaje|e]; cbn [bind]; [|now cbn].
  destruct (float_ltb float_0_9 porcentaje);
    [|destruct (float_ltb porcentaje float_0_1)];
    cbn; rewrite !map_app; repeat split; reflexivity.
Qed.

(** ** The constructor *)

Section ConstructionFacts.
Variable to_datetime_format : string -> string -> string -> pyresult Timestamp.
Variable Clock : Type.
Variable today_floor_s : string -> Clock -> Clock * pyresult Timestamp.
Variable Files : Type.
Variable realpath : string -> Files -> string.
Variable isdir : string -> Files -> bool.
Variable mkdir : string -> Files -> Files * pyresult unit.
Variable strftime : Timestamp -> string -> string.
Variable requests_get : string -> list (string * Z) -> pyresult Response.

Lemma truthy_nonempty (s : string) : s <> ""%string -> truthy (Some s) = true.
Proof. destruct s; [congruence | reflexivity]. Qed.


Lemma timestamp_value_valid (t : Timestamp) :
  valid_timestamp t -> timestamp_value t = Return (value t).
Proof.
  unfold valid_timestamp, timestamp_value. intros [Hlo Hhi].
  apply Z.leb_le in Hlo. apply Z.ltb_lt in Hhi. now rewrite Hlo, Hhi.
Qed.

Lemma timestamp_value_invalid (t : Timestamp) :
  ~ valid_timestamp t -> timestamp_value t = Raise OverflowError.
Proof.
  unfold valid_timestamp, timestamp_value. intros Hn.
  destruct (Z.leb_spec (- 2 ^ 63) (value t)); [|reflexivity].
  destruct (Z.ltb_spec (value t) (2 ^ 63)); [|reflexivity].
  exfalso. apply Hn. split; assumption.
Qed.

Lemma valid_timestamp_dec (t : Timestamp) :
  {valid_timestamp t} + {~ valid_timestamp t}.
Proof.
  unfold valid_timestamp.
  destruct (Z_le_dec (- 2 ^ 63) (value t)); [|right; tauto].
  destruct (Z_lt_dec (value t) (2 ^ 63)); [left; tauto | right; tauto].
Qed.

(** The reads of [.value] and the fetch that follow the two dates. *)
Lemma fetch_for_range_inv (pair : string) (interval : option string)
      (s e : Timestamp) (candles : list Candle) :
  (start_value <- timestamp_value s ;;
   end_value <- timestamp_value e ;;
   chart._get_ohlcv_data requests_get pair interval
     (start_value / 10 ^ 9)%Z (end_value / 10 ^ 9)%Z)
  = Return candles ->
  valid_timestamp s /\ valid_timestamp e
  /\ chart._get_ohlcv_data requests_get pair interval (posix s) (posix e)
     = Return candles.
Proof.
  destruct (valid_timestamp_dec s) as [Hs|Hs];
    [rewrite (timestamp_value_valid _ Hs)
    |rewrite (timestamp_value_invalid _ Hs); discriminate].
  destruct (valid_timestamp_dec e) as [He|He];
    [rewrite (timestamp_value_valid _ He)
    |rewrite (timestamp_value_invalid _ He); discriminate].
  cbn [bind]. auto.
Qed.

(** X19. When both dates are given and parse to timestamps within the
    int64 nanoseconds, and the fetch for their POSIX seconds raises, the
    constructor raises the same exception; when one of them does not fit
    the int64 nanoseconds it raises [OverflowError] and the request is not
    made.  Either way no chart exists, the clock was not read and no
    folder was made. *)
Theorem X19_init_fetch_failure (pair start end_ interval : string)
        (w : chart.World Clock Files) (start_date end_date : Timestamp) :
  start <> ""%string -> end_ <> ""%string ->
  to_datetime_format start "%d/%m/%Y" "Europe/Madrid" = Return start_date ->
  to_datetime_format end_ "%d/%m/%Y" "Europe/Madrid" = Return end_date ->
  (valid_timestamp start_date -> valid_timestamp end_date ->
   forall e : exn,
     chart._get_ohlcv_data requests_get pair (Some interval)
       (posix start_date) (posix end_date) = Raise e ->
     chart.__init__ to_datetime_format today_floor_s realpath isdir mkdir
       strftime requests_get pair start end_ interval w
     = (w, Raise e))
  /\ (~ valid_timestamp start_date \/ ~ valid_timestamp end_date ->
      chart.__init__ to_datetime_format today_floor_s realpath isdir mkdir
        strftime requests_get pair start end_ interval w
      = (w, Raise OverflowError)).
Proof.
  intros Hs He Hstart Hend. unfold chart.__init__.
  rewrite (truthy_nonempty _ Hs), (truthy_nonempty _ He), Hstart, Hend.
  split.
  - intros Hvs Hve e Hfetch.
    rewrite (timestamp_value_valid _ Hvs), (timestamp_value_valid _ Hve).
    cbn [bind]. unfold posix in Hfetch. rewrite Hfetch.
    destruct w. reflexivity.
  - intros Hbad.
    destruct (valid_timestamp_dec start_date) as [Hvs|Hvs].
    + destruct Hbad as [Hbad|Hbad]; [contradiction|].
      rewrite (timestamp_value_valid _ Hvs),
        (timestamp_value_invalid _ Hbad).
      cbn [bind]. destruct w. reflexivity.
    + rewrite (timestamp_value_invalid _ Hvs). cbn [bind].
      destruct w. reflexivity.
Qed.


(** X21. A chart built with the same day as start and end has a range of
    zero seconds: a marker at that very instant is accepted, and the call
    then raises [ZeroDivisionError] without adding an annotation; a marker
    at any other instant is dropped.  (For the dropped markers the day of
    the chart and the date of the marker are instants: the property says
    nothing of [NaT].) *)
Theorem X21_init_same_day (pair day interval : string)
        (w w' : chart.World Clock Files) (new : chart.Chart) :
  day <> ""%string ->
  chart.__init__ to_datetime_format today_floor_s realpath isdir mkdir strftime
    requests_get pair day day interval w
  = (w', Return new) ->
  chart.start_date new = chart.end_date new
  /\ forall (to_datetime : string -> string -> pyresult Timestamp)
            (format_number : Q -> string) (label : string)
            (quantity price : Q) (date : string) (point_date : Timestamp),
      to_datetime date (chart.local new) = Return point_date ->
      let out :=
        chart.add_buy_sell_point to_datetime format_number new label
          quantity price date in
      (value point_date = value (chart.start_date new) ->
       snd out = Raise ZeroDivisionError
       /\ annotations (chart.fig (fst out)) = [])
      /\ (is_instant (chart.start_date new) -> is_instant point_date ->
          value point_date <> value (chart.start_date new) ->
          out = (new, Return tt)).
Proof.
  intros Hday Hnew. unfold chart.__init__ in Hnew.
  rewrite (truthy_nonempty _ Hday) in Hnew.
  destruct (to_datetime_format day "%d/%m/%Y" "Europe/Madrid") as [t|e];
    [|discriminate].
  destruct (bind (timestamp_value _) _) as [candles|e]; [|discriminate].
  assert (Hshape : new = {| chart.local := "Europe/Madrid";
                            chart.file_path := chart.file_path new;
                            chart.pair := pair;
                            chart.start_date := t;
                            chart.end_date := t;
                            chart.fig := chart.__create_figure candles |}).
  { destruct (negb _); [destruct (mkdir _ _) as [fs [[]|e]]|];
      try discriminate; injection Hnew as _ <-; reflexivity. }
  clear Hnew. rewrite Hshape. cbn [chart.start_date chart.end_date chart.local].
  split; [reflexivity|].
  intros to_datetime format_number label quantity price date point_date Hparse.
  cbv zeta. unfold chart.add_buy_sell_point.
  cbn [chart.start_date chart.end_date chart.local]. rewrite Hparse.
  unfold ts_ltb, ts_gtb. split.
  - intros ->. rewrite Z.ltb_irrefl. cbn [orb].
    rewrite note_position_zero_range by reflexivity. split; reflexivity.
  - intros _ _ Hne.
    destruct (Z.ltb_spec (value point_date) (value t)); [reflexivity|].
    destruct (Z.ltb_spec (value t) (value point_date)); [reflexivity|lia].
Qed.

(** X22. A chart that the constructor returns was drawn from the candles
    fetched for its own range, seconds after its start and before its
    end, and holds the pair it was asked for; a folder that already
    exists is left as it is; and on such a chart any sequence of added
    markers followed by a deletion gives the new chart back. *)
Theorem X22_new_chart (pair start end_ interval : string)
        (w w' : chart.World Clock Files) (new : chart.Chart) :
  chart.__init__ to_datetime_format today_floor_s realpath isdir mkdir strftime
    requests_get pair start end_ interval w
  = (w', Return new) ->
  (exists candles,
      chart._get_ohlcv_data requests_get pair (Some interval)
        (posix (chart.start_date new)) (posix (chart.end_date new))
      = Return candles
      /\ chart.fig new = chart.__create_figure candles)
  /\ chart.pair new = pair
  /\ chart.local new = "Europe/Madrid"
  /\ (isdir (realpath "./archivos" (chart.files w)) (chart.files w) = true ->
      chart.files w' = chart.files w)
  /\ forall (to_datetime : string -> string -> pyresult Timestamp)
            (format_number : Q -> string) (calls : list marker_call),
      chart.delete_buy_sell_points
        (add_all to_datetime format_number new calls)
      = (new, Return tt).
Proof.
  intros Hnew. unfold chart.__init__ in Hnew.
  destruct (if truthy (Some start) then _ else _) as [clock1 [start_date|e]];
    [|discriminate].
  destruct (if truthy (Some end_) then _ else _) as [clock2 [end_date|e]];
    [|discriminate].
  destruct (bind (timestamp_value _) _) as [candles|e] eqn:Hfetch;
    [|discriminate].
  apply fetch_for_range_inv in Hfetch. destruct Hfetch as (_ & _ & Hfetch).
  destruct (isdir _ _) eqn:Hdir; cbn [negb] in Hnew;
    [|destruct (mkdir _ _) as [fs [[]|e]]; [|discriminate]];
    injection Hnew as <- <-; cbn [chart.files];
    (split; [exists candles; split; [exact Hfetch | reflexivity]|]);
    (split; [reflexivity|]); (split; [reflexivity|]);
    (split; [try reflexivity; discriminate|]);
    intros to_datetime format_number calls;
    match goal with
    | |- context [add_all _ _ ?c calls] =>
        destruct (add_all_appends to_datetime format_number calls c)
          as (ts & ns & ->)
    end; reflexivity.
Qed.
End ConstructionFacts.

(** * The further properties on sample inputs *)

Example fetch_dense :
  chart._get_ohlcv_data (sample_requests_get dense_data) "btceur" None 0 1000
  = Return (bucket 501).
Proof. vm_compute. reflexivity. Qed.

Example fetch_no_bucket :
  chart._get_ohlcv_data (sample_requests_get {| result := [] |}) "btceur"
    None 0 1000
  = Raise IndexError.
Proof. vm_compute. reflexivity. Qed.

Lemma X1_witness :
  chart._get_ohlcv_data (sample_requests_get empty_data) "btceur" (Some "60")
    0 1000
  = dict_getitem (result (json {| status_code := 200; json := empty_data |}))
      "60"
  /\ (~ In "60"%string
        (dict_keys (result (json {| status_code := 200; json := empty_data |}))) ->
      chart._get_ohlcv_data (sample_requests_get empty_data) "btceur"
        (Some "60") 0 1000
      = Raise (KeyError "60"))
  /\ (dict_wf (result (json {| status_code := 200; json := empty_data |})) ->
      In ("60"%string, [])
         (result (json {| status_code := 200; json := empty_data |})) ->
      chart._get_ohlcv_data (sample_requests_get empty_data) "btceur"
        (Some "60") 0 1000
      = Return []).
Proof.
  apply (X1_forced_fetch_is_lookup (sample_requests_get empty_data) "btceur"
           "60" 0 1000 {| status_code := 200; json := empty_data |}).
  - discriminate.
  - reflexivity.
  - reflexivity.
Defined.

Lemma X2_witness :
  chart._get_ohlcv_data failing_requests_get "btceur" None 0 1000
  = Raise (Exception "connection refused")
  /\ chart._get_ohlcv_data error_requests_get "btceur" None 0 1000
     = Raise (HTTPError 429).
Proof.
  split.
  - apply (proj1 (X2_request_errors failing_requests_get "btceur" None 0 1000)).
    reflexivity.
  - apply (proj2 (X2_request_errors error_requests_get "btceur" None 0 1000)
             {| status_code := 429; json := dense_data |}).
    + reflexivity.
    + cbn. lia.
Defined.

Lemma X3_witness :
  exists label candles,
    chart._get_optimal_interval None
      (json {| status_code := 200; json := dense_data |})
    = Return (Some label)
    /\ dict_getitem (result (json {| status_code := 200; json := dense_data |}))
         label
       = Return candles
    /\ candles <> []
    /\ chart._get_ohlcv_data (sample_requests_get dense_data) "btceur" None
         0 1000
       = Return candles.
Proof.
  apply (X3_fetch_returns_chosen_bucket (sample_requests_get dense_data)
           "btceur" None 0 1000 {| status_code := 200; json := dense_data |}).
  - reflexivity.
  - reflexivity.
  - reflexivity.
  - wf_sample.
  - exists "3600", (bucket 24). split; [reflexivity | discriminate].
Defined.

Lemma X4_witness :
  (result small_data = []
   /\ chart._get_optimal_interval None small_data = Raise IndexError)
  \/ (result small_data <> []
      /\ (forall l cs, dict_getitem (result small_data) l = Return cs ->
                       cs = [])
      /\ chart._get_optimal_interval None small_data = Return None)
  \/ (exists l cs,
        dict_getitem (result small_data) l = Return cs /\ cs <> []
        /\ chart._get_optimal_interval None small_data = Return (Some l)).
Proof.
  apply (X4_selector_outcomes None small_data).
  - wf_sample.
  - reflexivity.
Defined.

Lemma X5_witness :
  chart._get_optimal_interval None dense_data
  = chart._get_optimal_interval None dense_data_reordered.
Proof.
  apply (X5_order_independent None dense_data dense_data_reordered).
  - wf_sample.
  - exact (Permutation_rev (result dense_data)).
  - vm_compute. repeat constructor; cbn; intuition discriminate.
Defined.

Lemma X6_witness :
  chart._get_optimal_interval None dense_data
  = chart._get_optimal_interval None dense_data_other.
Proof.
  apply (X6_selector_reads_sizes_only None dense_data dense_data_other).
  vm_compute. reflexivity.
Defined.

Example select_tied_sparse :
  chart._get_optimal_interval None tied_sparse_data = Return (Some "300").
Proof. vm_compute. reflexivity. Qed.

Lemma X7_witness :
  appears_before "60" "300" (dict_keys (result tied_sparse_data)).
Proof.
  apply (X7_fallback_tie_is_last None tied_sparse_data "300" "60"
           (bucket 300) (bucket 300)).
  - wf_sample.
  - reflexivity.
  - intros k bs H. each_bucket H; apply Nat.leb_le; vm_compute; reflexivity.
  - vm_compute. reflexivity.
  - reflexivity.
  - reflexivity.
  - reflexivity.
  - discriminate.
Defined.

Ltac valid_sample :=
  unfold valid_timestamp; vm_compute; split; [discriminate | reflexivity].



Lemma X10_witness :
  let self := sample_chart in
  let point_date := to_datetime_s 50 in
  let out :=
    chart.add_buy_sell_point sample_to_datetime sample_format_number self
      "s" (2 # 10000) 40000 "50" in
  data (chart.fig (fst out))
  = data (chart.fig self)
    ++ [Scatter [point_date] [40000%Q]
          (if String.eqb "s" "b" || String.eqb "s" "B"
           then "#bbdc86" else "#e70039")]
  /\ (posix (chart.start_date self) = posix (chart.end_date self) ->
      snd out = Raise ZeroDivisionError
      /\ annotations (chart.fig (fst out)) = annotations (chart.fig self))
  /\ (posix (chart.start_date self) <> posix (chart.end_date self) ->
      exists pos text,
        chart.__get_note_position_x self point_date = Return pos
        /\ snd out = Return tt
        /\ annotations (chart.fig (fst out))
           = annotations (chart.fig self)
             ++ [{| ann_x := point_date; ann_y := 40000; ann_text := text;
                    ann_ax := pos |}]).
Proof.
  apply (X10_marker_in_range sample_to_datetime sample_format_number
           sample_chart "s" (2 # 10000) 40000 "50" (to_datetime_s 50)).
  - reflexivity.
  - vm_compute. split; discriminate.
Defined.

Example marker_in_range_annotation :
  annotations
    (chart.fig
       (fst (chart.add_buy_sell_point sample_to_datetime sample_format_number
               sample_chart "s" (2 # 10000) 40000 "50")))
  = [{| ann_x := to_datetime_s 50; ann_y := 40000;
        ann_text := "S 0.0002 BTC at 0.0002 € <br> 50"; ann_ax := 100 |}].
Proof. vm_compute. reflexivity. Qed.

Lemma X12_witness :
  let self :=
    fst (chart.add_buy_sell_point sample_to_datetime sample_format_number
           degenerate_chart "b" (2 # 10000) 40000 "1000") in
  List.length (annotations (chart.fig self)) + 2
  <= List.length (data (chart.fig self))
  /\ (posix (chart.start_date self) <> posix (chart.end_date self) ->
      List.length (annotations (chart.fig self)) + 2
      = List.length (data (chart.fig self)))
  /\ (posix (chart.start_date self) = posix (chart.end_date self) ->
      annotations (chart.fig self) = []).
Proof.
  apply (X12_annotations_follow_markers sample_to_datetime
           sample_format_number).
  apply chart.reach_add. apply (chart.reach_init _ _ _ (bucket 3)).
  reflexivity.
Defined.

Lemma X13_witness :
  chart.delete_buy_sell_points
    (add_all sample_to_datetime sample_format_number sample_chart
       sample_calls)
  = (sample_chart, Return tt).
Proof.
  match eval vm_compute in (data (chart.fig sample_chart)) with
  | [?c; ?v] =>
      apply (X13_delete_undoes_adds sample_to_datetime sample_format_number
               sample_chart c v)
  end; vm_compute; reflexivity.
Defined.

Lemma X15_witness :
  chart.delete_buy_sell_points
    (chart.set_fig sample_chart
       {| data := [Bar [] []];
          annotations := [{| ann_x := to_datetime_s 50; ann_y := 40000;
                             ann_text := "note"; ann_ax := 20 |}] |})
  = (chart.set_fig sample_chart
       {| data := [Bar [] []];
          annotations := [{| ann_x := to_datetime_s 50; ann_y := 40000;
                             ann_text := "note"; ann_ax := 20 |}] |},
     Raise IndexError).
Proof.
  apply X15_delete_short_figure. cbn. lia.
Defined.

Lemma X18_witness :
  let salida :=
    grafico.añadir_punto_compra_venta sample_to_datetime sample_format_number
      sample_grafico "c" (2 # 10000) 40000 "50" in
  let out :=
    chart.add_buy_sell_point sample_to_datetime sample_format_number
      (to_chart sample_grafico) "b" (2 # 10000) 40000 "50" in
  snd salida = snd out
  /\ data (grafico.fig (fst salida)) = data (chart.fig (fst out))
  /\ map ann_position (annotations (grafico.fig (fst salida)))
     = map ann_position (annotations (chart.fig (fst out)))
  /\ chart.set_fig (to_chart (fst salida)) (chart.fig (fst out)) = fst out.
Proof.
  apply (X18_adds_agree sample_to_datetime sample_format_number
           sample_grafico "c" "b" (2 # 10000) 40000 "50").
  reflexivity.
Defined.

Example annotation_texts_differ :
  map ann_text
    (annotations
       (grafico.fig
          (fst (grafico.añadir_punto_compra_venta sample_to_datetime
                  sample_format_number sample_grafico "c" (2 # 10000) 40000
                  "50"))))
  = ["C 0.0002 BTC a 0.0002 € <br> 50"].
Proof. vm_compute. reflexivity. Qed.

Lemma X19_witness :
  chart.__init__ sample_to_datetime_format sample_today sample_realpath
    sample_isdir sample_mkdir sample_strftime failing_requests_get
    "btceur" "0" "86400" "" sample_world
  = (sample_world, Raise (Exception "connection refused"))
  /\ chart.__init__ sample_to_datetime_format sample_today sample_realpath
       sample_isdir sample_mkdir sample_strftime
       (sample_requests_get small_data) "btceur" "0" "far" "" sample_world
     = (sample_world, Raise OverflowError).
Proof.
  split.
  - destruct (X19_init_fetch_failure sample_to_datetime_format Z sample_today
                (list string) sample_realpath sample_isdir sample_mkdir
                sample_strftime failing_requests_get "btceur" "0" "86400" ""
                sample_world (to_datetime_s 0) (to_datetime_s 86400))
      as [Hfetch _].
    + discriminate.
    + discriminate.
    + reflexivity.
    + reflexivity.
    + apply Hfetch.
      * valid_sample.
      * valid_sample.
      * reflexivity.
  - destruct (X19_init_fetch_failure sample_to_datetime_format Z sample_today
                (list string) sample_realpath sample_isdir sample_mkdir
                sample_strftime (sample_requests_get small_data) "btceur"
                "0" "far" "" sample_world (to_datetime_s 0)
                {| value := 2 ^ 70 |})
      as [_ Hover].
    + discriminate.
    + discriminate.
    + reflexivity.
    + reflexivity.
    + apply Hover. right. unfold valid_timestamp. cbn [value].
      intros [_ H]. vm_compute in H. discriminate.
Defined.


Lemma X21_witness :
  exists (w' : chart.World Z (list string)) (new : chart.Chart),
    chart.__init__ sample_to_datetime_format sample_today sample_realpath
      sample_isdir sample_mkdir sample_strftime
      (sample_requests_get small_data) "btceur" "0" "0" "" sample_world
    = (w', Return new)
    /\ chart.start_date new = chart.end_date new
    /\ snd (chart.add_buy_sell_point sample_to_datetime sample_format_number
              new "b" (2 # 10000) 40000 "0")
       = Raise ZeroDivisionError
    /\ chart.add_buy_sell_point sample_to_datetime sample_format_number
         new "b" (2 # 10000) 40000 "50"
       = (new, Return tt).
Proof.
  match eval vm_compute in
        (chart.__init__ sample_to_datetime_format sample_today
           sample_realpath sample_isdir sample_mkdir sample_strftime
           (sample_requests_get small_data) "btceur" "0" "0" "" sample_world)
  with
  | (?w', Return ?new) =>
      exists w', new; split; [vm_compute; reflexivity|];
      destruct (X21_init_same_day sample_to_datetime_format Z sample_today
                  (list string) sample_realpath sample_isdir sample_mkdir
                  sample_strftime (sample_requests_get small_data)
                  "btceur" "0" "" sample_world w' new)
        as (Hsame & Hadd);
      [discriminate | vm_compute; reflexivity|];
      split; [exact Hsame|]; split;
      [apply (Hadd sample_to_datetime sample_format_number "b" (2 # 10000)
                40000%Q "0" (to_datetime_s 0)); reflexivity
      |apply (Hadd sample_to_datetime sample_format_number "b" (2 # 10000)
                40000%Q "50" (to_datetime_s 50));
       [reflexivity
       | unfold is_instant; vm_compute; discriminate
       | unfold is_instant; vm_compute; discriminate
       | vm_compute; discriminate]]
  end.
Defined.

Lemma X22_witness :
  exists (w' : chart.World Z (list string)) (new : chart.Chart),
    chart.__init__ sample_to_datetime_format sample_today sample_realpath
      sample_isdir sample_mkdir sample_strftime
      (sample_requests_get small_data) "btceur" "0" "86400" "" sample_world
    = (w', Return new)
    /\ chart.pair new = "btceur"%string
    /\ chart.delete_buy_sell_points
         (add_all sample_to_datetime sample_format_number new sample_calls)
       = (new, Return tt).
Proof.
  match eval vm_compute in
        (chart.__init__ sample_to_datetime_format sample_today
           sample_realpath sample_isdir sample_mkdir sample_strftime
           (sample_requests_get small_data) "btceur" "0" "86400" ""
           sample_world)
  with
  | (?w', Return ?new) =>
      exists w', new; split; [vm_compute; reflexivity|];
      destruct (X22_new_chart sample_to_datetime_format Z sample_today
                  (list string) sample_realpath sample_isdir sample_mkdir
                  sample_strftime (sample_requests_get small_data)
                  "btceur" "0" "86400" "" sample_world w' new)
        as (_ & Hpair & _ & _ & Hdel);
      [vm_compute; reflexivity|];
      split; [exact Hpair | apply Hdel]
  end.
Defined.

Example new_chart_makes_folder :
  fst (chart.__init__ sample_to_datetime_format sample_today sample_realpath
         sample_isdir sample_mkdir sample_strftime
         (sample_requests_get small_data) "btceur" "0" "86400" ""
         sample_world)
  = {| chart.clock := 864000500000000%Z;
       chart.files := ["/home/user/./archivos"] |}.
Proof. vm_compute. reflexivity. Qed.

Lemma X16_witness :
  chart.add_buy_sell_point sample_to_datetime sample_format_number
    inverted_chart "b" (2 # 10000) 40000 "50"
  = (inverted_chart, Return tt).
Proof.
  apply (X16_inverted_range_drops_all sample_to_datetime sample_format_number
           inverted_chart "b" (2 # 10000) 40000 "50" (to_datetime_s 50)).
  - unfold is_instant. vm_compute. discriminate.
  - unfold is_instant. vm_compute. discriminate.
  - vm_compute. reflexivity.
  - reflexivity.
  - unfold is_instant. vm_compute. discriminate.
Defined.
